(** * Rolling-window volatility estimation of the SX5E base GBM notebook

    The notebook cell "Obtaining Model Parameters from Historical Data"
    computes, for every lookback [M_value] and every valuation [date],

<<
    date_index = S_all.loc[S_all['Date'] == date].index[0]
    history_data = list(S_all.iloc[date_index-M_value:date_index, ]['Adj Close'])
    log_history_data = np.log(history_data)
    log_return = log_history_data[1:] - log_history_data[:-1]
    sigma[i] = np.std(log_return) / np.sqrt(dt)
>>

    This file embeds those five lines and the loop around them.

    Numbers.  A numpy float64 is modelled by [npfloat]: a finite value is an
    exact real number, and the three IEEE special values [+inf], [-inf] and
    [nan] are kept, with the IEEE rules for them, because the cell silences
    numpy's warnings and lets them flow into [sigma].  Rounding, overflow
    and the sign of zero are outside the model (zero is [+0.0]). *)

From Stdlib Require Import Reals ROrderedType Lra Lia ZArith String Bool List
  Sorted.
Import ListNotations.

Local Open Scope R_scope.

(** ** numpy floating-point values *)

Module NpFloat.

Inductive npfloat : Type :=
| Fin (r : R)
| PInf
| NInf
| NaN.

Definition inf_of_sign (c : comparison) : npfloat :=
  match c with
  | Gt => PInf
  | Lt => NInf
  | Eq => NaN
  end.

(** Sign of a real: [Gt] when positive, [Lt] when negative. *)
Definition Rsign (r : R) : comparison := Rcompare r 0.

Definition fadd (x y : npfloat) : npfloat :=
  match x, y with
  | NaN, _ | _, NaN => NaN
  | Fin a, Fin b => Fin (a + b)
  | PInf, NInf | NInf, PInf => NaN
  | PInf, _ | _, PInf => PInf
  | NInf, _ | _, NInf => NInf
  end.

Definition fsub (x y : npfloat) : npfloat :=
  match x, y with
  | NaN, _ | _, NaN => NaN
  | Fin a, Fin b => Fin (a - b)
  | PInf, PInf | NInf, NInf => NaN
  | PInf, _ | _, NInf => PInf
  | NInf, _ | _, PInf => NInf
  end.

Definition fmul (x y : npfloat) : npfloat :=
  match x, y with
  | NaN, _ | _, NaN => NaN
  | Fin a, Fin b => Fin (a * b)
  | Fin a, PInf | PInf, Fin a => inf_of_sign (Rsign a)
  | Fin a, NInf | NInf, Fin a => inf_of_sign (CompOpp (Rsign a))
  | PInf, PInf | NInf, NInf => PInf
  | PInf, NInf | NInf, PInf => NInf
  end.

Definition fdiv (x y : npfloat) : npfloat :=
  match x, y with
  | NaN, _ | _, NaN => NaN
  | Fin a, Fin b =>
      match Rsign b with
      | Eq => inf_of_sign (Rsign a)
      | _ => Fin (a / b)
      end
  | Fin _, (PInf | NInf) => Fin 0
  | PInf, Fin b => match Rsign b with Lt => NInf | _ => PInf end
  | NInf, Fin b => match Rsign b with Lt => PInf | _ => NInf end
  | (PInf | NInf), (PInf | NInf) => NaN
  end.

Definition fabs (x : npfloat) : npfloat :=
  match x with
  | Fin r => Fin (Rabs r)
  | PInf | NInf => PInf
  | NaN => NaN
  end.

(** [x ** 2] *)
Definition fsquare (x : npfloat) : npfloat := fmul x x.

(** [np.sqrt]: [nan] below zero. *)
Definition fsqrt (x : npfloat) : npfloat :=
  match x with
  | Fin r => match Rsign r with Lt => NaN | _ => Fin (sqrt r) end
  | PInf => PInf
  | NInf | NaN => NaN
  end.

(** [np.log]: [-inf] at zero, [nan] below zero. *)
Definition flog (x : npfloat) : npfloat :=
  match x with
  | Fin r => match Rsign r with
             | Gt => Fin (ln r)
             | Eq => NInf
             | Lt => NaN
             end
  | PInf => PInf
  | NInf | NaN => NaN
  end.

(** The comparison [0 <= x], false at [nan] as every IEEE comparison. *)
Definition fnonneg (x : npfloat) : Prop :=
  match x with
  | Fin r => 0 <= r
  | PInf => True
  | NInf | NaN => False
  end.

(** The comparison [0 < x]. *)
Definition fpos (x : npfloat) : Prop :=
  match x with
  | Fin r => 0 < r
  | PInf => True
  | NInf | NaN => False
  end.

Definition finite (x : npfloat) : Prop :=
  match x with
  | Fin _ => True
  | _ => False
  end.

End NpFloat.
Export NpFloat.

(** ** Python exceptions and results *)

Inductive exn : Type :=
| IndexError.

(** [type(e).__name__]: the class of the exception. *)
Definition exn_name (e : exn) : string :=
  match e with
  | IndexError => "IndexError"
  end.

Inductive result (A : Type) : Type :=
| Ok (a : A)
| Raise (e : exn).
Arguments Ok {A} a.
Arguments Raise {A} e.

Definition bind {A B : Type} (c : result A) (k : A -> result B) : result B :=
  match c with
  | Ok a => k a
  | Raise e => Raise e
  end.

Notation "x <- c ;; k" := (bind c (fun x => k))
  (at level 61, c at next level, right associativity).

(** ** The data frame [S_all] *)

Record row : Type := mkRow { Date : string; Adj_Close : npfloat }.

(** [S_all = pd.read_csv(...)][['Date', 'Adj Close']]: the rows in file
    order, labelled by the default index 0, 1, ..., n-1. *)
Definition frame : Type := list row.

Definition labelled (S_all : frame) : list (Z * row) :=
  combine (map Z.of_nat (seq 0 (length S_all))) S_all.

(** [S_all.loc[S_all['Date'] == date]]: the labelled rows whose date is
    [date], in order. *)
Definition loc_date_eq (S_all : frame) (date : string) : list (Z * row) :=
  filter (fun lr => String.eqb (Date (snd lr)) date) (labelled S_all).

(** [.index[0]]: the first label; an empty index raises [IndexError]. *)
Definition index_0 (sel : list (Z * row)) : result Z :=
  match sel with
  | [] => Raise IndexError
  | lr :: _ => Ok (fst lr)
  end.

Definition date_index (S_all : frame) (date : string) : result Z :=
  index_0 (loc_date_eq S_all date).

(** Python's slice bounds for a sequence of length [n] (step 1): a negative
    bound counts from the end, and every bound is clamped into [0, n]. *)
Definition slice_bound (k n : Z) : Z :=
  if (k <? 0)%Z then Z.max (k + n) 0 else Z.min k n.

(** [l.iloc[start:stop]] *)
Definition iloc_slice {A : Type} (l : list A) (start stop : Z) : list A :=
  let n := Z.of_nat (length l) in
  let s := slice_bound start n in
  let e := slice_bound stop n in
  firstn (Z.to_nat (e - s)) (skipn (Z.to_nat s) l).

(** [list(S_all.iloc[date_index-M_value:date_index, ]['Adj Close'])] *)
Definition history_data (S_all : frame) (date_index M_value : Z)
  : list npfloat :=
  map Adj_Close (iloc_slice S_all (date_index - M_value) date_index).

(** ** numpy array operations *)

Definition np_log (a : list npfloat) : list npfloat := map flog a.

(** [a - b], elementwise on two arrays of one length. *)
Definition arr_sub (a b : list npfloat) : list npfloat :=
  map (fun xy => fsub (fst xy) (snd xy)) (combine a b).

(** [a[1:] - a[:-1]] *)
Definition diff_1 (a : list npfloat) : list npfloat :=
  arr_sub (tl a) (removelast a).

Definition np_sum (a : list npfloat) : npfloat :=
  fold_left fadd a (Fin 0).

(** [a.mean()]: the sum over the count; [0/0 = nan] on an empty array. *)
Definition np_mean (a : list npfloat) : npfloat :=
  fdiv (np_sum a) (Fin (INR (length a))).

(** [np.std(a)] with its default [ddof=0]:
    [sqrt(mean(abs(a - a.mean())**2))]. *)
Definition np_std (a : list npfloat) : npfloat :=
  let m := np_mean a in
  fsqrt (np_mean (map (fun x => fsquare (fabs (fsub x m))) a)).

(** ** The estimate *)

(** Lines 293-295: the value assigned to [sigma[i]], from [history_data]. *)
Definition sigma_of (history : list npfloat) (dt : npfloat) : npfloat :=
  let log_history_data := np_log history in
  let log_return := diff_1 log_history_data in
  fdiv (np_std log_return) (fsqrt dt).

(** Lines 292-295, from the row position of the valuation date. *)
Definition sigma_at (S_all : frame) (date_index M_value : Z) (dt : npfloat)
  : npfloat :=
  sigma_of (history_data S_all date_index M_value) dt.

(** Lines 291-295: the loop body for one [date] and one [M_value]. *)
Definition estimate (S_all : frame) (date : string) (M_value : Z)
  (dt : npfloat) : result npfloat :=
  date_index <- date_index S_all date ;;
  Ok (sigma_at S_all date_index M_value dt).

(** ** The loop over the valuation dates *)

Section Loop.

(** [sigma] is a float32 array: a store into it casts the value. *)
Variable astype_float32 : npfloat -> npfloat.

(** [np.zeros(n, dtype=np.float32)] *)
Definition np_zeros (n : nat) : list npfloat := repeat (Fin 0) n.

Fixpoint replace_nth (a : list npfloat) (i : nat) (v : npfloat)
  : list npfloat :=
  match a, i with
  | [], _ => []
  | _ :: a', O => v :: a'
  | x :: a', S i' => x :: replace_nth a' i' v
  end.

(** [sigma[i] = v]; a position past the end raises [IndexError]. *)
Definition setitem (sigma : list npfloat) (i : nat) (v : npfloat)
  : result (list npfloat) :=
  if (i <? length sigma)%nat
  then Ok (replace_nth sigma i (astype_float32 v))
  else Raise IndexError.

(** [for i, date in enumerate(actual_dates): ...], from position [i]. *)
Fixpoint sigma_loop (S_all : frame) (M_value : Z) (dt : npfloat)
  (actual_dates : list string) (i : nat) (sigma : list npfloat)
  : result (list npfloat) :=
  match actual_dates with
  | [] => Ok sigma
  | date :: rest =>
      v <- estimate S_all date M_value dt ;;
      sigma' <- setitem sigma i v ;;
      sigma_loop S_all M_value dt rest (S i) sigma'
  end.

(** One turn of [for M_value in M]: the filled [sigma]. *)
Definition sigma_for_M (S_all : frame) (actual_dates : list string)
  (M_value : Z) (dt : npfloat) : result (list npfloat) :=
  sigma_loop S_all M_value dt actual_dates 0
    (np_zeros (length actual_dates)).

End Loop.

(** ** The estimator as the specification words it *)

Module Spec.

(** The M prices at row positions [i-M .. i-1]. *)
Definition window (S_all : frame) (i M : nat) : list npfloat :=
  map (fun k => Adj_Close (nth (i - M + k) S_all (mkRow "" NaN)))
    (seq 0 M).

(** The log-returns [ln p_(k+1) - ln p_k], one per consecutive pair. *)
Definition log_returns (p : list R) : list R :=
  map (fun k => ln (nth (S k) p 0) - ln (nth k p 0))
    (seq 0 (length p - 1)).

Fixpoint Rsum (l : list R) : R :=
  match l with
  | [] => 0
  | x :: l' => x + Rsum l'
  end.

(** Population standard deviation: the squared deviations from the mean
    are divided by the count. *)
Definition pop_std (r : list R) : R :=
  let n := INR (length r) in
  let mu := Rsum r / n in
  sqrt (Rsum (map (fun x => (x - mu) * (x - mu)) r) / n).

Definition sigma (p : list R) (dt : R) : R :=
  pop_std (log_returns p) / sqrt dt.

End Spec.

(** ** A transformation of the series used in the statements *)

(** The same rows with other dates attached: row [k] gets [new_date k]. *)
Definition redate (new_date : nat -> string) (S_all : frame) : frame :=
  map (fun kr => mkRow (new_date (fst kr)) (Adj_Close (snd kr)))
    (combine (seq 0 (length S_all)) S_all).

(** ** The dates of interest *)

(** [ir]: the yield-curve file, its columns renamed to [Date],
    [Date String] and [Interest Rate]. *)
Record ir_row : Type :=
  mkIr { ir_Date : string; Date_String : string; Interest_Rate : npfloat }.

Definition ir_frame : Type := list ir_row.

(** [ir[(ir['Date'] >= lo) & (ir['Date'] <= hi)]['Date'].values]: the
    comparison of two [str] is the lexicographic one. *)
Definition dates_between (ir : ir_frame) (lo hi : string) : list string :=
  map ir_Date
    (filter (fun r => String.leb lo (ir_Date r) && String.leb (ir_Date r) hi)
       ir).

Definition actual_dates (ir : ir_frame) : list string :=
  dates_between ir "2023-08-09" "2023-11-09".

(** ** The report printed for each lookback *)

(** [a[k]] for an integer [k]: a negative [k] counts from the end, and a
    position outside the array raises [IndexError]. *)
Definition py_getitem {A : Type} (a : list A) (k : Z) : result A :=
  let n := Z.of_nat (length a) in
  let j := if (k <? 0)%Z then (k + n)%Z else k in
  if ((0 <=? j) && (j <? n))%Z
  then match nth_error a (Z.to_nat j) with
       | Some x => Ok x
       | None => Raise IndexError
       end
  else Raise IndexError.

(** The values formatted into the printed line, in the order the f-string
    evaluates them. *)
Record report_line : Type :=
  mkLine { line_M : Z;
           line_first_date : string;
           line_sigma_first : npfloat;
           line_last_date : string;
           line_sigma_last : npfloat;
           line_sigma_average : npfloat }.

Section Cell.

Variable astype_float32 : npfloat -> npfloat.

(** [sigma.mean()] of the float32 array: a float32 again (the rounding of
    the float32 accumulation is outside the model). *)
Definition sigma_mean (sigma : list npfloat) : npfloat :=
  astype_float32 (np_mean sigma).

(** The body of [for M_value in M]: fill [sigma], then evaluate the fields
    of the f-string. *)
Definition report (S_all : frame) (dates : list string) (M_value : Z)
  (dt : npfloat) : result report_line :=
  sigma <- sigma_for_M astype_float32 S_all dates M_value dt ;;
  d0 <- py_getitem dates 0 ;;
  s0 <- py_getitem sigma 0 ;;
  d1 <- py_getitem dates (-1) ;;
  s1 <- py_getitem sigma (-1) ;;
  Ok (mkLine M_value d0 s0 d1 s1 (sigma_mean sigma)).

(** [for M_value in M: ...; print(...)]: the lines printed so far and how
    the loop ends. *)
Fixpoint for_M_values (S_all : frame) (dates : list string) (dt : npfloat)
  (M : list Z) (stdout : list report_line)
  : list report_line * result unit :=
  match M with
  | [] => (stdout, Ok tt)
  | M_value :: rest =>
      match report S_all dates M_value dt with
      | Ok line => for_M_values S_all dates dt rest (stdout ++ [line])
      | Raise e => (stdout, Raise e)
      end
  end.

(** The cell, with its [M = [21, 63, 252]]. *)
Definition sigma_cell (S_all : frame) (dates : list string) (dt : npfloat)
  : list report_line * result unit :=
  for_M_values S_all dates dt [21; 63; 252]%Z [].

End Cell.

(** ** Sample series *)

Module Sample.

Local Open Scope string_scope.

(** [dt = 1/252] *)
Definition dt : npfloat := Fin (/ 252).

Definition S_all : frame :=
  [ mkRow "2023-08-04" (Fin 4300);
    mkRow "2023-08-07" (Fin 4300);
    mkRow "2023-08-08" (Fin 4300);
    mkRow "2023-08-09" (Fin 4317);
    mkRow "2023-08-10" (Fin 4384) ].

(** The same days with a zero quote on 8 August. *)
Definition S_zero : frame :=
  [ mkRow "2023-08-04" (Fin 4300);
    mkRow "2023-08-07" (Fin 4300);
    mkRow "2023-08-08" (Fin 0);
    mkRow "2023-08-09" (Fin 4317);
    mkRow "2023-08-10" (Fin 4384) ].

Definition actual_dates : list string := [ "2023-08-09"; "2023-08-10" ].

(** A yield curve with a day before and a day after the dates of
    interest. *)
Definition ir : ir_frame :=
  [ mkIr "2023-08-08" "08 Aug 2023" (Fin 3);
    mkIr "2023-08-09" "09 Aug 2023" (Fin 3);
    mkIr "2023-08-10" "10 Aug 2023" (Fin 3);
    mkIr "2023-11-10" "10 Nov 2023" (Fin 3) ].

End Sample.

(** * Properties *)

(** ** Signs and the finite fragment of the arithmetic *)

Lemma Rsign_pos (r : R) : 0 < r -> Rsign r = Gt.
Proof.
  intros Hr. unfold Rsign.
  destruct (Rcompare_spec r 0) as [H | H | H]; [lra | lra | reflexivity].
Qed.

Lemma Rsign_neg (r : R) : r < 0 -> Rsign r = Lt.
Proof.
  intros Hr. unfold Rsign.
  destruct (Rcompare_spec r 0) as [H | H | H]; [lra | reflexivity | lra].
Qed.

Lemma Rsign_zero : Rsign 0 = Eq.
Proof.
  unfold Rsign.
  destruct (Rcompare_spec 0 0) as [H | H | H]; [reflexivity | lra | lra].
Qed.

Lemma Rsign_cases (r : R) :
  (r < 0 /\ Rsign r = Lt) \/ (r = 0 /\ Rsign r = Eq) \/ (0 < r /\ Rsign r = Gt).
Proof.
  unfold Rsign.
  destruct (Rcompare_spec r 0) as [H | H | H]; auto.
Qed.

Lemma flog_pos (r : R) : 0 < r -> flog (Fin r) = Fin (ln r).
Proof. intros Hr. simpl. now rewrite Rsign_pos. Qed.

Lemma flog_zero : flog (Fin 0) = NInf.
Proof. simpl. now rewrite Rsign_zero. Qed.

Lemma flog_neg (r : R) : r < 0 -> flog (Fin r) = NaN.
Proof. intros Hr. simpl. now rewrite Rsign_neg. Qed.

Lemma fsqrt_nonneg (r : R) : 0 <= r -> fsqrt (Fin r) = Fin (sqrt r).
Proof.
  intros Hr. simpl.
  destruct (Rsign_cases r) as [[H E] | [[H E] | [H E]]]; rewrite E;
    [lra | reflexivity | reflexivity].
Qed.

Lemma fsqrt_neg (r : R) : r < 0 -> fsqrt (Fin r) = NaN.
Proof. intros Hr. simpl. now rewrite Rsign_neg. Qed.

Lemma fdiv_fin (a b : R) : b <> 0 -> fdiv (Fin a) (Fin b) = Fin (a / b).
Proof.
  intros Hb. simpl.
  destruct (Rsign_cases b) as [[H E] | [[H E] | [H E]]]; rewrite E;
    [reflexivity | lra | reflexivity].
Qed.

Lemma fdiv_zero_zero : fdiv (Fin 0) (Fin 0) = NaN.
Proof. simpl. now rewrite Rsign_zero. Qed.

Lemma fsquare_fabs_fin (r : R) : fsquare (fabs (Fin r)) = Fin (r * r).
Proof.
  simpl. f_equal.
  unfold Rabs. destruct (Rcase_abs r); lra.
Qed.

(** ** Sums, means and deviations of finite arrays *)

Lemma fold_fadd_fin (l : list R) (acc : R) :
  fold_left fadd (map Fin l) (Fin acc) = Fin (acc + Spec.Rsum l).
Proof.
  revert acc. induction l as [| x l IH]; intros acc; simpl.
  - f_equal. lra.
  - rewrite IH. f_equal. lra.
Qed.

Lemma np_sum_fin (l : list R) : np_sum (map Fin l) = Fin (Spec.Rsum l).
Proof.
  unfold np_sum. rewrite fold_fadd_fin. f_equal. lra.
Qed.

Lemma INR_length_pos {A : Type} (l : list A) : l <> [] -> 0 < INR (length l).
Proof.
  intros Hl. destruct l as [| x l]; [congruence |].
  apply lt_0_INR. simpl. lia.
Qed.

Lemma np_mean_fin (l : list R) :
  l <> [] -> np_mean (map Fin l) = Fin (Spec.Rsum l / INR (length l)).
Proof.
  intros Hl. unfold np_mean.
  rewrite np_sum_fin, length_map.
  apply fdiv_fin. pose proof (INR_length_pos l Hl). lra.
Qed.

Lemma Rsum_squares_nonneg (l : list R) (mu : R) :
  0 <= Spec.Rsum (map (fun x => (x - mu) * (x - mu)) l).
Proof.
  induction l as [| x l IH]; simpl; [lra |].
  pose proof (Rle_0_sqr (x - mu)) as Hs. unfold Rsqr in Hs. lra.
Qed.

Lemma np_std_fin (l : list R) :
  l <> [] -> np_std (map Fin l) = Fin (Spec.pop_std l).
Proof.
  intros Hl. unfold np_std, Spec.pop_std.
  rewrite (np_mean_fin l Hl).
  set (mu := Spec.Rsum l / INR (length l)).
  rewrite map_map.
  rewrite (map_ext (fun x => fsquare (fabs (fsub (Fin x) (Fin mu))))
             (fun x => Fin ((x - mu) * (x - mu)))).
  2:{ intros x. simpl fsub. apply fsquare_fabs_fin. }
  rewrite <- (map_map (fun x => (x - mu) * (x - mu)) Fin).
  rewrite np_mean_fin.
  2:{ destruct l; [congruence | discriminate]. }
  rewrite length_map.
  apply fsqrt_nonneg.
  apply Rmult_le_pos.
  - apply Rsum_squares_nonneg.
  - left. apply Rinv_0_lt_compat. now apply INR_length_pos.
Qed.

Lemma pop_std_nonneg (l : list R) : 0 <= Spec.pop_std l.
Proof. unfold Spec.pop_std. apply sqrt_pos. Qed.

(** ** Log-returns *)

Lemma diff_1_cons2 (x y : npfloat) (a : list npfloat) :
  diff_1 (x :: y :: a) = fsub y x :: diff_1 (y :: a).
Proof. reflexivity. Qed.

Lemma log_returns_cons2 (a b : R) (p : list R) :
  Spec.log_returns (a :: b :: p) = (ln b - ln a) :: Spec.log_returns (b :: p).
Proof.
  unfold Spec.log_returns.
  replace (length (a :: b :: p) - 1)%nat with (S (length p)) by (simpl; lia).
  replace (length (b :: p) - 1)%nat with (length p) by (simpl; lia).
  rewrite <- cons_seq, <- seq_shift. simpl map at 1.
  rewrite map_map. reflexivity.
Qed.

Lemma length_log_returns (p : list R) :
  length (Spec.log_returns p) = (length p - 1)%nat.
Proof. unfold Spec.log_returns. now rewrite length_map, length_seq. Qed.

Lemma diff_log_fin (p : list R) :
  Forall (fun x => 0 < x) p ->
  diff_1 (np_log (map Fin p)) = map Fin (Spec.log_returns p).
Proof.
  induction p as [| a p IH]; intros Hp; [reflexivity |].
  destruct p as [| b p]; [reflexivity |].
  inversion Hp as [| ? ? Ha Hp']; subst.
  inversion Hp' as [| ? ? Hb _]; subst.
  rewrite log_returns_cons2.
  change (np_log (map Fin (a :: b :: p)))
    with (flog (Fin a) :: flog (Fin b) :: np_log (map Fin p)).
  rewrite diff_1_cons2.
  change (flog (Fin b) :: np_log (map Fin p))
    with (np_log (map Fin (b :: p))).
  rewrite (IH Hp'), (flog_pos a Ha), (flog_pos b Hb). reflexivity.
Qed.

Lemma sigma_of_fin (p : list R) (dt : R) :
  Forall (fun x => 0 < x) p -> (2 <= length p)%nat -> 0 < dt ->
  sigma_of (map Fin p) (Fin dt) = Fin (Spec.sigma p dt).
Proof.
  intros Hp Hlen Hdt. unfold sigma_of, Spec.sigma.
  rewrite (diff_log_fin p Hp).
  rewrite np_std_fin.
  2:{ intros E. apply (f_equal (@length R)) in E.
      rewrite length_log_returns in E. simpl in E. lia. }
  rewrite fsqrt_nonneg by lra.
  apply fdiv_fin.
  pose proof (sqrt_lt_R0 dt Hdt). lra.
Qed.

Lemma sigma_of_nil (dt : npfloat) : sigma_of [] dt = NaN.
Proof.
  unfold sigma_of, np_std, np_mean, np_sum. simpl.
  rewrite Rsign_zero. reflexivity.
Qed.

Lemma sigma_of_single (x dt : npfloat) : sigma_of [x] dt = NaN.
Proof.
  unfold sigma_of, np_std, np_mean, np_sum. simpl.
  rewrite Rsign_zero. reflexivity.
Qed.

(** ** Locating the valuation date *)

Lemma index_0_labelled (date : string) (l : frame) (s : nat) (i : Z) :
  index_0 (filter (fun lr => String.eqb (Date (snd lr)) date)
             (combine (map Z.of_nat (seq s (length l))) l)) = Ok i ->
  exists k r, i = Z.of_nat (s + k) /\ nth_error l k = Some r /\
              Date r = date /\
              forall j r', (j < k)%nat -> nth_error l j = Some r' ->
                           Date r' <> date.
Proof.
  revert s. induction l as [| r l IH]; intros s H; simpl in H.
  - discriminate.
  - destruct (String.eqb (Date r) date) eqn:E.
    + simpl in H. injection H as <-.
      exists 0%nat, r. repeat split.
      * f_equal. lia.
      * now apply String.eqb_eq.
      * intros j r' Hj. lia.
    + destruct (IH (S s) H) as (k & r0 & Hi & Hk & Hd & Hfirst).
      exists (S k), r0. repeat split; auto.
      * rewrite Hi. f_equal. lia.
      * intros j r' Hj Hn. destruct j as [| j]; simpl in Hn.
        -- injection Hn as <-. now apply String.eqb_neq.
        -- apply (Hfirst j r'); [lia | assumption].
Qed.

Lemma date_index_found (S_all : frame) (date : string) (i : Z) :
  date_index S_all date = Ok i ->
  exists r, (0 <= i < Z.of_nat (length S_all))%Z /\
            nth_error S_all (Z.to_nat i) = Some r /\ Date r = date /\
            forall j r', (j < Z.to_nat i)%nat ->
                         nth_error S_all j = Some r' -> Date r' <> date.
Proof.
  intros H. unfold date_index, loc_date_eq, labelled in H.
  destruct (index_0_labelled date S_all 0 i H) as (k & r & Hi & Hk & Hd & Hf).
  simpl in Hi. subst i. rewrite Nat2Z.id.
  exists r. repeat split; auto; try lia.
  assert (k < length S_all)%nat by (apply nth_error_Some; congruence).
  lia.
Qed.

Lemma index_0_absent (date : string) (l : frame) (s : nat) :
  (forall r, In r l -> Date r <> date) ->
  index_0 (filter (fun lr => String.eqb (Date (snd lr)) date)
             (combine (map Z.of_nat (seq s (length l))) l)) = Raise IndexError.
Proof.
  revert s. induction l as [| r l IH]; intros s H; simpl.
  - reflexivity.
  - assert (E : String.eqb (Date r) date = false)
      by (apply String.eqb_neq, H; now left).
    rewrite E. apply IH. intros r' Hr'. apply H. now right.
Qed.

Lemma estimate_at (S_all : frame) (date : string) (M_value i : Z)
  (dt : npfloat) :
  date_index S_all date = Ok i ->
  estimate S_all date M_value dt = Ok (sigma_at S_all i M_value dt).
Proof. intros H. unfold estimate. rewrite H. reflexivity. Qed.

(** ** The window cut by the slice *)

Lemma slice_bound_inside (k n : Z) :
  (0 <= k <= n)%Z -> slice_bound k n = k.
Proof.
  intros H. unfold slice_bound.
  destruct (Z.ltb_spec k 0); lia.
Qed.

Lemma slice_bound_negative (k n : Z) :
  (k < 0)%Z -> slice_bound k n = Z.max (k + n) 0.
Proof.
  intros H. unfold slice_bound.
  destruct (Z.ltb_spec k 0); lia.
Qed.

Lemma firstn_skipn_nth {A : Type} (d : A) (l : list A) (a m : nat) :
  (a + m <= length l)%nat ->
  firstn m (skipn a l) = map (fun k => nth (a + k) l d) (seq 0 m).
Proof.
  revert a l. induction m as [| m IH]; intros a l H; [reflexivity |].
  rewrite <- cons_seq, <- seq_shift, map_cons, map_map.
  destruct (skipn a l) as [| x t] eqn:E.
  - apply (f_equal (@length A)) in E. rewrite length_skipn in E.
    simpl in E. lia.
  - simpl firstn. f_equal.
    + rewrite Nat.add_0_r.
      rewrite <- (firstn_skipn a l) at 1. rewrite E.
      rewrite app_nth2; rewrite length_firstn; [| lia].
      replace (a - Nat.min a (length l))%nat with 0%nat by lia.
      reflexivity.
    + assert (Et : t = skipn (S a) l).
      { replace (S a) with (1 + a)%nat by lia.
        rewrite <- skipn_skipn, E. reflexivity. }
      rewrite Et, (IH (S a) l) by lia.
      apply map_ext. intros k. f_equal. lia.
Qed.

Lemma iloc_slice_inside {A : Type} (l : list A) (start stop : Z) :
  (0 <= start <= stop)%Z -> (stop <= Z.of_nat (length l))%Z ->
  iloc_slice l start stop
  = firstn (Z.to_nat (stop - start)) (skipn (Z.to_nat start) l).
Proof.
  intros H1 H2. unfold iloc_slice.
  rewrite !slice_bound_inside by lia. reflexivity.
Qed.

Lemma history_data_window (S_all : frame) (i M : Z) :
  (0 <= M <= i)%Z -> (i <= Z.of_nat (length S_all))%Z ->
  history_data S_all i M = Spec.window S_all (Z.to_nat i) (Z.to_nat M).
Proof.
  intros H1 H2. unfold history_data, Spec.window.
  rewrite iloc_slice_inside by lia.
  replace (i - (i - M))%Z with M by lia.
  rewrite (firstn_skipn_nth (mkRow "" NaN)) by lia.
  rewrite map_map. apply map_ext. intros k.
  do 2 f_equal. lia.
Qed.

Lemma length_window (S_all : frame) (i M : nat) :
  length (Spec.window S_all i M) = M.
Proof. unfold Spec.window. now rewrite length_map, length_seq. Qed.

(** ** How the special values travel through the estimate *)

Lemma flog_nonpos (r : R) : r <= 0 -> ~ finite (flog (Fin r)).
Proof.
  intros Hr. simpl.
  destruct (Rsign_cases r) as [[H E] | [[H E] | [H E]]]; rewrite E;
    simpl; tauto || lra.
Qed.

Lemma fsub_nonfinite (x y : npfloat) :
  ~ finite x \/ ~ finite y -> ~ finite (fsub x y).
Proof. destruct x, y; simpl; tauto. Qed.

Lemma fadd_nonfinite (x y : npfloat) :
  ~ finite x \/ ~ finite y -> ~ finite (fadd x y).
Proof. destruct x, y; simpl; tauto. Qed.

Lemma diff_1_nonfinite (a : list npfloat) :
  (2 <= length a)%nat -> Exists (fun x => ~ finite x) a ->
  Exists (fun x => ~ finite x) (diff_1 a).
Proof.
  induction a as [| x a IH]; intros Hlen Hex; [simpl in Hlen; lia |].
  destruct a as [| y a]; [simpl in Hlen; lia |].
  rewrite diff_1_cons2.
  inversion Hex as [? ? Hx | ? ? Hya]; subst.
  - left. apply fsub_nonfinite. now right.
  - destruct a as [| z a].
    + inversion Hya as [? ? Hy | ? ? Hn]; subst; [| inversion Hn].
      left. apply fsub_nonfinite. now left.
    + right. apply IH; [simpl; lia | assumption].
Qed.

Lemma fold_fadd_nonfinite (a : list npfloat) (acc : npfloat) :
  ~ finite acc \/ Exists (fun x => ~ finite x) a ->
  ~ finite (fold_left fadd a acc).
Proof.
  revert acc. induction a as [| x a IH]; intros acc [H | H]; simpl.
  - assumption.
  - inversion H.
  - apply IH. left. apply fadd_nonfinite. now left.
  - apply IH. inversion H; subst.
    + left. apply fadd_nonfinite. now right.
    + now right.
Qed.

Lemma fold_fadd_PInf (a : list npfloat) (acc : npfloat) :
  fold_left fadd a acc = PInf -> acc = PInf \/ In PInf a.
Proof.
  revert acc. induction a as [| x a IH]; intros acc H; simpl in H.
  - now left.
  - destruct (IH _ H) as [E | E].
    + destruct acc, x; simpl in E; try discriminate; auto.
      right. now left.
    + right. now right.
Qed.

Lemma fold_fadd_NInf (a : list npfloat) (acc : npfloat) :
  fold_left fadd a acc = NInf -> acc = NInf \/ In NInf a.
Proof.
  revert acc. induction a as [| x a IH]; intros acc H; simpl in H.
  - now left.
  - destruct (IH _ H) as [E | E].
    + destruct acc, x; simpl in E; try discriminate; auto.
      right. now left.
    + right. now right.
Qed.

Lemma fold_fadd_NaN (a : list npfloat) (acc : npfloat) :
  acc = NaN \/ In NaN a -> fold_left fadd a acc = NaN.
Proof.
  revert acc. induction a as [| x a IH]; intros acc [H | H]; simpl.
  - assumption.
  - contradiction.
  - apply IH. left. subst acc. reflexivity.
  - apply IH. destruct H as [-> | H].
    + left. destruct acc; reflexivity.
    + now right.
Qed.

Lemma np_std_nonfinite (a : list npfloat) :
  Exists (fun x => ~ finite x) a -> np_std a = NaN.
Proof.
  intros Hex.
  assert (Hne : a <> []) by (intros ->; inversion Hex).
  assert (Hn : Rsign (INR (length a)) = Gt)
    by (apply Rsign_pos, INR_length_pos, Hne).
  assert (Hdev : In NaN (map (fun x => fsquare (fabs (fsub x (np_mean a)))) a)).
  { pose proof (fold_fadd_nonfinite a (Fin 0) (or_intror Hex)) as Hs.
    unfold np_mean, np_sum.
    destruct (fold_left fadd a (Fin 0)) as [s | | |] eqn:Es;
      [simpl in Hs; tauto | | |]; simpl fdiv; rewrite ?Hn.
    - apply fold_fadd_PInf in Es. destruct Es as [Es | Es]; [discriminate |].
      apply in_map_iff. exists PInf. split; [reflexivity | assumption].
    - apply fold_fadd_NInf in Es. destruct Es as [Es | Es]; [discriminate |].
      apply in_map_iff. exists NInf. split; [reflexivity | assumption].
    - destruct a as [| x a]; [congruence |].
      left. destruct x; reflexivity. }
  unfold np_std.
  set (dev := map _ a) in *.
  unfold np_mean at 1, np_sum.
  rewrite (fold_fadd_NaN dev (Fin 0) (or_intror Hdev)). reflexivity.
Qed.

Lemma np_std_nil : np_std [] = NaN.
Proof.
  unfold np_std, np_mean, np_sum. simpl. rewrite Rsign_zero. reflexivity.
Qed.

(** A window with a price that is zero or negative gives [nan]. *)
Lemma sigma_of_nonpositive (history : list npfloat) (dt : npfloat) (r : R) :
  In (Fin r) history -> r <= 0 -> sigma_of history dt = NaN.
Proof.
  intros Hin Hr. unfold sigma_of.
  assert (Hstd : np_std (diff_1 (np_log history)) = NaN).
  { destruct history as [| x [| y h]].
    - apply np_std_nil.
    - apply np_std_nil.
    - apply np_std_nonfinite, diff_1_nonfinite.
      + unfold np_log. rewrite length_map. simpl. lia.
      + apply Exists_exists. exists (flog (Fin r)). split.
        * unfold np_log. apply in_map. assumption.
        * now apply flog_nonpos. }
  rewrite Hstd. reflexivity.
Qed.

(** * The estimator against its specification *)

Local Open Scope string_scope.

(** C1. When the valuation date is in the series at row [i], with
    [2 <= M <= i], [dt > 0] and positive prices [p] in the M rows before
    it, the estimate is the population standard deviation (squared
    deviations divided by the count of returns) of the M-1 log-returns
    [ln p_(k+1) - ln p_k], divided by [sqrt dt]. *)
Theorem estimate_is_population_std
  (S_all : frame) (date : string) (i M : Z) (dt : R) (p : list R) :
  date_index S_all date = Ok i ->
  (2 <= M <= i)%Z ->
  0 < dt ->
  Spec.window S_all (Z.to_nat i) (Z.to_nat M) = map Fin p ->
  Forall (fun x => 0 < x) p ->
  estimate S_all date M (Fin dt) = Ok (Fin (Spec.sigma p dt))
  /\ length (Spec.log_returns p) = Z.to_nat (M - 1).
Proof.
  intros Hi HM Hdt Hw Hp.
  destruct (date_index_found _ _ _ Hi) as (r & Hrange & _).
  assert (Hlen : length p = Z.to_nat M).
  { rewrite <- (length_map Fin p), <- Hw. apply length_window. }
  split.
  - rewrite (estimate_at _ _ _ _ _ Hi). unfold sigma_at.
    rewrite history_data_window by lia.
    rewrite Hw. f_equal. apply sigma_of_fin; [assumption | lia | assumption].
  - rewrite length_log_returns, Hlen. lia.
Qed.

Lemma estimate_is_population_std_witness :
  estimate Sample.S_all "2023-08-10" 3 Sample.dt
  = Ok (Fin (Spec.sigma [4300; 4300; 4317] (/ 252)))
  /\ length (Spec.log_returns [4300; 4300; 4317]) = Z.to_nat (3 - 1).
Proof.
  apply (estimate_is_population_std Sample.S_all "2023-08-10" 4 3).
  - reflexivity.
  - lia.
  - lra.
  - reflexivity.
  - repeat constructor; lra.
Defined.

(** C2. For a valuation date at row [i] and [0 <= M <= i], the window of the
    estimate is the M prices of rows [i-M .. i-1]: the estimate is computed
    from them, and any series that has the same prices in those rows (and
    any price at row [i] itself, or elsewhere) gets the same estimate. *)
Theorem window_is_the_M_rows_before
  (S_all : frame) (date : string) (i M : Z) (dt : npfloat) :
  date_index S_all date = Ok i ->
  (0 <= M <= i)%Z ->
  history_data S_all i M = Spec.window S_all (Z.to_nat i) (Z.to_nat M)
  /\ length (history_data S_all i M) = Z.to_nat M
  /\ estimate S_all date M dt
     = Ok (sigma_of (Spec.window S_all (Z.to_nat i) (Z.to_nat M)) dt)
  /\ forall (S_all' : frame) (date' : string),
       date_index S_all' date' = Ok i ->
       (forall k : nat,
           (Z.to_nat i - Z.to_nat M <= k < Z.to_nat i)%nat ->
           Adj_Close (nth k S_all' (mkRow "" NaN))
           = Adj_Close (nth k S_all (mkRow "" NaN))) ->
       estimate S_all' date' M dt = estimate S_all date M dt.
Proof.
  intros Hi HM.
  destruct (date_index_found _ _ _ Hi) as (r & Hrange & _).
  assert (Hh : history_data S_all i M
               = Spec.window S_all (Z.to_nat i) (Z.to_nat M))
    by (apply history_data_window; lia).
  repeat split.
  - exact Hh.
  - rewrite Hh. apply length_window.
  - rewrite (estimate_at _ _ _ _ _ Hi). unfold sigma_at. now rewrite Hh.
  - intros S_all' date' Hi' Hsame.
    destruct (date_index_found _ _ _ Hi') as (r' & Hrange' & _).
    rewrite (estimate_at _ _ _ _ _ Hi), (estimate_at _ _ _ _ _ Hi').
    unfold sigma_at. rewrite Hh, history_data_window by lia.
    do 2 f_equal. unfold Spec.window.
    apply map_ext_in. intros k Hk. apply in_seq in Hk.
    apply Hsame. lia.
Qed.

Lemma window_is_the_M_rows_before_witness :
  estimate Sample.S_zero "2023-08-08" 2 Sample.dt
  = estimate Sample.S_all "2023-08-08" 2 Sample.dt.
Proof.
  destruct (window_is_the_M_rows_before Sample.S_all "2023-08-08" 2 2
              Sample.dt) as (_ & _ & _ & H).
  - reflexivity.
  - lia.
  - apply H.
    + reflexivity.
    + intros k Hk. simpl in Hk.
      destruct k as [| [| k]]; [reflexivity | reflexivity | lia].
Defined.

(** C5 fails on the code: for a date that no row carries, the exception
    that comes out is the built-in [IndexError] of [.index[0]]; the
    notebook defines and raises no [DateNotFoundError]. *)
Lemma absent_date_is_IndexError :
  (forall r, In r Sample.S_all -> Date r <> "2023-08-05")
  /\ estimate Sample.S_all "2023-08-05" 2 Sample.dt = Raise IndexError
  /\ forall e, estimate Sample.S_all "2023-08-05" 2 Sample.dt = Raise e ->
                exn_name e <> "DateNotFoundError".
Proof.
  split; [| split].
  - intros r Hr. simpl in Hr.
    destruct Hr as [<- | [<- | [<- | [<- | [<- | []]]]]]; discriminate.
  - reflexivity.
  - intros e _. destruct e. discriminate.
Qed.

(** C5, as the code has it.  A valuation date that is the [Date] of no row
    makes the estimate fail with [IndexError]: [.index[0]] on the empty
    selection raises it, before any value is computed. *)
Theorem absent_date_raises
  (S_all : frame) (date : string) (M : Z) (dt : npfloat) :
  (forall r, In r S_all -> Date r <> date) ->
  estimate S_all date M dt = Raise IndexError.
Proof.
  intros Habs. unfold estimate, date_index, loc_date_eq, labelled.
  rewrite (index_0_absent date S_all 0 Habs). reflexivity.
Qed.

Lemma absent_date_raises_witness :
  estimate Sample.S_all "2023-08-05" 2 Sample.dt = Raise IndexError.
Proof.
  apply absent_date_raises.
  intros r Hr. simpl in Hr.
  destruct Hr as [<- | [<- | [<- | [<- | [<- | []]]]]]; discriminate.
Defined.

(** ** Constant windows *)

Lemma Rsum_zeros (l : list R) :
  Forall (fun x => x = 0) l -> Spec.Rsum l = 0.
Proof.
  induction 1 as [| x l Hx _ IH]; simpl; [reflexivity | lra].
Qed.

Lemma pop_std_zeros (l : list R) :
  Forall (fun x => x = 0) l -> Spec.pop_std l = 0.
Proof.
  intros Hz. unfold Spec.pop_std.
  rewrite (Rsum_zeros l Hz).
  rewrite Rsum_zeros.
  - unfold Rdiv. rewrite Rmult_0_l. apply sqrt_0.
  - apply Forall_forall. intros y Hy.
    apply in_map_iff in Hy. destruct Hy as (x & <- & Hx).
    rewrite Forall_forall in Hz. rewrite (Hz x Hx).
    unfold Rdiv. rewrite Rmult_0_l. lra.
Qed.

Lemma log_returns_constant (p : list R) (c : R) :
  Forall (fun x => x = c) p ->
  Forall (fun x => x = 0) (Spec.log_returns p).
Proof.
  intros Hc. apply Forall_forall. intros y Hy.
  unfold Spec.log_returns in Hy.
  apply in_map_iff in Hy. destruct Hy as (k & <- & Hk).
  apply in_seq in Hk. rewrite Forall_forall in Hc.
  rewrite (Hc (nth (S k) p 0)) by (apply nth_In; lia).
  rewrite (Hc (nth k p 0)) by (apply nth_In; lia).
  lra.
Qed.

Lemma all_equal_map_Fin (a : list npfloat) (c : R) :
  (forall x, In x a -> x = Fin c) ->
  a = map Fin (repeat c (length a)).
Proof.
  induction a as [| x a IH]; intros H; [reflexivity |].
  simpl. rewrite <- IH by (intros y Hy; apply H; now right).
  rewrite (H x) by now left. reflexivity.
Qed.

Lemma sigma_of_constant (c dt : R) (n : nat) :
  (2 <= n)%nat -> 0 < c -> 0 < dt ->
  sigma_of (map Fin (repeat c n)) (Fin dt) = Fin 0.
Proof.
  intros Hn Hc Hdt.
  assert (Hp : Forall (fun x => x = c) (repeat c n)).
  { apply Forall_forall. intros x Hx. now apply repeat_spec in Hx. }
  rewrite sigma_of_fin.
  - f_equal. unfold Spec.sigma.
    rewrite (pop_std_zeros _ (log_returns_constant _ c Hp)).
    unfold Rdiv. apply Rmult_0_l.
  - apply Forall_forall. intros x Hx. rewrite Forall_forall in Hp.
    rewrite (Hp x Hx). assumption.
  - rewrite repeat_length. lia.
  - assumption.
Qed.

(** C6. When the valuation date is at row [i], [2 <= M <= i], [dt > 0] and
    the M window prices all equal one constant [c > 0], the estimate is
    exactly zero. *)
Theorem constant_window_sigma_zero
  (S_all : frame) (date : string) (i M : Z) (c dt : R) :
  date_index S_all date = Ok i ->
  (2 <= M <= i)%Z ->
  0 < c ->
  0 < dt ->
  (forall x, In x (Spec.window S_all (Z.to_nat i) (Z.to_nat M)) ->
             x = Fin c) ->
  estimate S_all date M (Fin dt) = Ok (Fin 0).
Proof.
  intros Hi HM Hc Hdt Hconst.
  destruct (date_index_found _ _ _ Hi) as (r & Hrange & _).
  rewrite (estimate_at _ _ _ _ _ Hi). unfold sigma_at.
  rewrite history_data_window by lia.
  rewrite (all_equal_map_Fin _ c Hconst), length_window.
  f_equal. apply sigma_of_constant; [lia | assumption | assumption].
Qed.

Lemma constant_window_sigma_zero_witness :
  estimate Sample.S_all "2023-08-09" 3 Sample.dt = Ok (Fin 0).
Proof.
  apply (constant_window_sigma_zero Sample.S_all "2023-08-09" 3 3 4300).
  - reflexivity.
  - lia.
  - lra.
  - lra.
  - intros x Hx. simpl in Hx.
    destruct Hx as [<- | [<- | [<- | []]]]; reflexivity.
Defined.

(** ** Dates of the window rows *)

Lemma map_Adj_Close_redate (new_date : nat -> string) (S_all : frame) :
  map Adj_Close (redate new_date S_all) = map Adj_Close S_all.
Proof.
  unfold redate. generalize 0%nat.
  induction S_all as [| r l IH]; intros s; [reflexivity |].
  simpl. f_equal. apply IH.
Qed.

Lemma history_data_prices (S_all : frame) (i M : Z) :
  history_data S_all i M = iloc_slice (map Adj_Close S_all) (i - M) i.
Proof.
  unfold history_data, iloc_slice.
  rewrite length_map, skipn_map, firstn_map. reflexivity.
Qed.

Lemma sigma_at_redate (new_date : nat -> string) (S_all : frame) (i M : Z)
  (dt : npfloat) :
  sigma_at (redate new_date S_all) i M dt = sigma_at S_all i M dt.
Proof.
  unfold sigma_at.
  now rewrite !history_data_prices, map_Adj_Close_redate.
Qed.

(** C10. With the valuation date at a fixed row [i], attaching any other
    dates to the rows (gaps, irregular spacing, repeated days) leaves the
    estimate unchanged: it is computed from the Adj Close values of the
    window and from [dt] alone. *)
Theorem sigma_ignores_dates
  (new_date : nat -> string) (S_all : frame) (date date' : string)
  (i M : Z) (dt : npfloat) :
  date_index S_all date = Ok i ->
  date_index (redate new_date S_all) date' = Ok i ->
  estimate (redate new_date S_all) date' M dt = estimate S_all date M dt
  /\ estimate S_all date M dt = Ok (sigma_of (history_data S_all i M) dt).
Proof.
  intros Hi Hi'.
  rewrite (estimate_at _ _ _ _ _ Hi), (estimate_at _ _ _ _ _ Hi').
  split; [| reflexivity].
  f_equal. apply sigma_at_redate.
Qed.

Lemma sigma_ignores_dates_witness :
  estimate
    (redate (fun k => match k with 4%nat => "2024-02-29" | _ => "2020-01-01" end)
       Sample.S_all) "2024-02-29" 3 Sample.dt
  = estimate Sample.S_all "2023-08-10" 3 Sample.dt.
Proof.
  refine (proj1 (sigma_ignores_dates _ Sample.S_all "2023-08-10"
                   "2024-02-29" 4 3 Sample.dt _ _)).
  - reflexivity.
  - reflexivity.
Defined.

(** ** Too little history *)

(** C3 fails on the code: on the five-row sample, 8 August has two rows
    before it, and with [M = 21] the estimate is the number computed from
    those two rows; 7 August has one row before it, and with [M = 3] the
    slice [-2:1] is empty and the estimate is [nan].  Nothing is raised. *)
Lemma short_history_not_raised :
  date_index Sample.S_all "2023-08-08" = Ok 2%Z
  /\ estimate Sample.S_all "2023-08-08" 21 Sample.dt = Ok (Fin 0)
  /\ date_index Sample.S_all "2023-08-07" = Ok 1%Z
  /\ estimate Sample.S_all "2023-08-07" 3 Sample.dt = Ok NaN.
Proof.
  split; [reflexivity |]. split; [| split; [reflexivity |]].
  - change (estimate Sample.S_all "2023-08-08" 21 Sample.dt)
      with (Ok (sigma_of (map Fin (repeat 4300 2)) (Fin (/ 252)))).
    f_equal. apply sigma_of_constant; [lia | lra | lra].
  - change (estimate Sample.S_all "2023-08-07" 3 Sample.dt)
      with (Ok (sigma_of [] Sample.dt)).
    f_equal. apply sigma_of_nil.
Qed.

(** C3, as the code has it.  When the valuation date is at row [i] of an
    n-row series and [i < M], no error is raised: the estimate is computed
    from the slice [i-M : i], whose negative start counts from the end of
    the series.  That slice is rows [max (n+i-M) 0 .. i-1]; it holds fewer
    than M prices, and none when [M <= n], where the estimate is [nan]. *)
Theorem short_history_slice
  (S_all : frame) (date : string) (i M : Z) (dt : npfloat) :
  date_index S_all date = Ok i ->
  (i < M)%Z ->
  let n := Z.of_nat (length S_all) in
  let s := Z.max (n + i - M) 0 in
  estimate S_all date M dt
  = Ok (sigma_of
          (map Adj_Close
             (firstn (Z.to_nat (i - s)) (skipn (Z.to_nat s) S_all))) dt)
  /\ (length (history_data S_all i M) < Z.to_nat M)%nat
  /\ ((M <= n)%Z -> estimate S_all date M dt = Ok NaN).
Proof.
  intros Hi HM n s.
  destruct (date_index_found _ _ _ Hi) as (r & Hrange & _).
  assert (Hh : history_data S_all i M
               = map Adj_Close
                   (firstn (Z.to_nat (i - s)) (skipn (Z.to_nat s) S_all))).
  { unfold history_data, iloc_slice.
    rewrite (slice_bound_negative (i - M)) by lia.
    rewrite (slice_bound_inside i) by lia.
    replace (i - M + Z.of_nat (length S_all))%Z with (n + i - M)%Z
      by (unfold n; lia).
    reflexivity. }
  rewrite (estimate_at _ _ _ _ _ Hi). unfold sigma_at. rewrite Hh.
  split; [reflexivity |]. split.
  - rewrite length_map, length_firstn. unfold s. lia.
  - intros Hn. f_equal.
    replace (Z.to_nat (i - s)) with 0%nat by (unfold s; lia).
    apply sigma_of_nil.
Qed.

Lemma short_history_slice_witness :
  estimate Sample.S_all "2023-08-08" 21 Sample.dt
  = Ok (sigma_of [Fin 4300; Fin 4300] Sample.dt)
  /\ (length (history_data Sample.S_all 2 21) < Z.to_nat 21)%nat
  /\ ((21 <= 5)%Z -> estimate Sample.S_all "2023-08-08" 21 Sample.dt = Ok NaN).
Proof.
  apply (short_history_slice Sample.S_all "2023-08-08" 2 21 Sample.dt).
  - reflexivity.
  - lia.
Defined.

(** ** Prices that are not positive *)

(** C4 fails on the code: with a zero quote in the window, [np.log] gives
    [-inf], nothing is raised, and the estimate is [nan]. *)
Lemma zero_price_not_raised :
  In (Fin 0) (history_data Sample.S_zero 3 3)
  /\ estimate Sample.S_zero "2023-08-09" 3 Sample.dt = Ok NaN.
Proof.
  split.
  - simpl. tauto.
  - change (estimate Sample.S_zero "2023-08-09" 3 Sample.dt)
      with (Ok (sigma_of [Fin 4300; Fin 4300; Fin 0] Sample.dt)).
    f_equal. apply (sigma_of_nonpositive _ _ 0); [simpl; tauto | lra].
Qed.

(** C4, as the code has it.  When the window of the estimate holds a price
    that is zero or negative, no error is raised and the estimate is
    [nan]. *)
Theorem nonpositive_price_gives_nan
  (S_all : frame) (date : string) (i M : Z) (dt : npfloat) (r : R) :
  date_index S_all date = Ok i ->
  In (Fin r) (history_data S_all i M) ->
  r <= 0 ->
  estimate S_all date M dt = Ok NaN.
Proof.
  intros Hi Hin Hr.
  rewrite (estimate_at _ _ _ _ _ Hi). unfold sigma_at. f_equal.
  now apply (sigma_of_nonpositive _ _ r).
Qed.

Lemma nonpositive_price_gives_nan_witness :
  estimate Sample.S_zero "2023-08-10" 2 Sample.dt = Ok NaN.
Proof.
  apply (nonpositive_price_gives_nan Sample.S_zero "2023-08-10" 4 2
           Sample.dt 0).
  - reflexivity.
  - simpl. tauto.
  - lra.
Defined.

(** ** Sign of the estimate *)

Lemma fsqrt_range (x : npfloat) : fsqrt x = NaN \/ fnonneg (fsqrt x).
Proof.
  destruct x as [r | | |]; simpl; auto.
  destruct (Rsign r); simpl; auto; right; apply sqrt_pos.
Qed.

Lemma fsqrt_fpos (x : npfloat) : fpos x -> fpos (fsqrt x).
Proof.
  destruct x as [r | | |]; simpl; auto.
  intros Hr. rewrite (Rsign_pos r Hr). simpl. now apply sqrt_lt_R0.
Qed.

Lemma fdiv_nonneg (x y : npfloat) :
  fnonneg x -> fpos y -> fdiv x y = NaN \/ fnonneg (fdiv x y).
Proof.
  destruct x as [a | | |], y as [b | | |]; simpl; intros Hx Hy;
    try contradiction; auto.
  - rewrite (Rsign_pos b Hy). right. simpl.
    apply Rmult_le_pos; [assumption |].
    left. now apply Rinv_0_lt_compat.
  - right. lra.
  - rewrite (Rsign_pos b Hy). right. exact I.
Qed.

Lemma sigma_of_sign (history : list npfloat) (dt : npfloat) :
  fpos dt -> sigma_of history dt = NaN \/ fnonneg (sigma_of history dt).
Proof.
  intros Hdt. unfold sigma_of, np_std.
  destruct (fsqrt_range
              (np_mean
                 (map (fun x => fsquare (fabs (fsub x
                    (np_mean (diff_1 (np_log history))))))
                    (diff_1 (np_log history))))) as [E | Hn].
  - left. rewrite E. reflexivity.
  - apply fdiv_nonneg; [assumption | now apply fsqrt_fpos].
Qed.

(** C8 fails on the code: with a zero quote in the window the estimator
    returns [nan], and [nan >= 0] does not hold. *)
Lemma nan_estimate_returned :
  estimate Sample.S_zero "2023-08-09" 2 Sample.dt = Ok NaN
  /\ ~ fnonneg NaN.
Proof.
  split.
  - change (estimate Sample.S_zero "2023-08-09" 2 Sample.dt)
      with (Ok (sigma_of [Fin 4300; Fin 0] Sample.dt)).
    f_equal. apply (sigma_of_nonpositive _ _ 0); [simpl; tauto | lra].
  - simpl. tauto.
Qed.

(** C8, as the code has it.  For [dt > 0], every estimate that the
    estimator returns is [nan] or satisfies [sigma >= 0]. *)
Theorem sigma_nonneg_or_nan
  (S_all : frame) (date : string) (M : Z) (dt v : npfloat) :
  fpos dt ->
  estimate S_all date M dt = Ok v ->
  v = NaN \/ fnonneg v.
Proof.
  intros Hdt He. unfold estimate in He.
  destruct (date_index S_all date) as [i | e]; simpl in He;
    [| discriminate].
  injection He as <-. unfold sigma_at. now apply sigma_of_sign.
Qed.

Lemma sigma_nonneg_or_nan_witness :
  sigma_at Sample.S_all 4 3 Sample.dt = NaN
  \/ fnonneg (sigma_at Sample.S_all 4 3 Sample.dt).
Proof.
  apply (sigma_nonneg_or_nan Sample.S_all "2023-08-10" 3 Sample.dt).
  - simpl. lra.
  - reflexivity.
Defined.

(** ** The loop that fills [sigma] *)

Lemma length_replace_nth (a : list npfloat) (i : nat) (v : npfloat) :
  length (replace_nth a i v) = length a.
Proof.
  revert i. induction a as [| x a IH]; intros [| i]; simpl; auto.
Qed.

Lemma nth_error_replace_nth_same (a : list npfloat) (i : nat) (v : npfloat) :
  (i < length a)%nat -> nth_error (replace_nth a i v) i = Some v.
Proof.
  revert i. induction a as [| x a IH]; intros [| i] H; simpl in *;
    try lia; auto.
  apply IH. lia.
Qed.

Lemma nth_error_replace_nth_other (a : list npfloat) (i j : nat)
  (v : npfloat) :
  i <> j -> nth_error (replace_nth a i v) j = nth_error a j.
Proof.
  revert i j. induction a as [| x a IH]; intros [| i] [| j] H; simpl;
    auto; try congruence.
Qed.

Section LoopFacts.

Variable astype_float32 : npfloat -> npfloat.

Lemma sigma_loop_entries (S_all : frame) (M : Z) (dt : npfloat)
  (dates : list string) :
  forall (i : nat) (sigma sigma' : list npfloat),
    sigma_loop astype_float32 S_all M dt dates i sigma = Ok sigma' ->
    length sigma' = length sigma
    /\ (forall j, (j < i)%nat -> nth_error sigma' j = nth_error sigma j)
    /\ (forall k date,
           nth_error dates k = Some date ->
           exists v, estimate S_all date M dt = Ok v
                     /\ nth_error sigma' (i + k) = Some (astype_float32 v)).
Proof.
  induction dates as [| d rest IH]; intros i sigma sigma' H; simpl in H.
  - injection H as <-. repeat split; auto.
    intros [| k] date Hk; discriminate.
  - destruct (estimate S_all d M dt) as [v | e] eqn:Ev; simpl in H;
      [| discriminate].
    unfold setitem in H.
    destruct (Nat.ltb_spec i (length sigma)) as [Hlt | Hge]; simpl in H;
      [| discriminate].
    destruct (IH _ _ _ H) as (Hlen & Hold & Hnew).
    rewrite length_replace_nth in Hlen.
    assert (Hi : nth_error sigma' i = Some (astype_float32 v)).
    { rewrite Hold by lia. now apply nth_error_replace_nth_same. }
    repeat split.
    + exact Hlen.
    + intros j Hj. rewrite Hold by lia.
      apply nth_error_replace_nth_other. lia.
    + intros [| k] date Hk; simpl in Hk.
      * injection Hk as <-. exists v. rewrite Nat.add_0_r. now split.
      * destruct (Hnew k date Hk) as (w & Hw & Hs).
        exists w. split; [assumption |].
        now replace (i + S k)%nat with (S i + k)%nat by lia.
Qed.

(** The loop runs to its end exactly when every date is found. *)
Lemma sigma_loop_total (S_all : frame) (M : Z) (dt : npfloat)
  (dates : list string) :
  forall (i : nat) (sigma : list npfloat),
    (i + length dates <= length sigma)%nat ->
    (forall date, In date dates ->
                  exists j, date_index S_all date = Ok j) ->
    exists sigma',
      sigma_loop astype_float32 S_all M dt dates i sigma = Ok sigma'.
Proof.
  induction dates as [| d rest IH]; intros i sigma Hlen Hall; simpl.
  - now exists sigma.
  - destruct (Hall d (or_introl eq_refl)) as (j & Hj).
    rewrite (estimate_at _ _ _ _ _ Hj). simpl.
    unfold setitem. simpl in Hlen.
    destruct (Nat.ltb_spec i (length sigma)) as [Hlt | Hge]; [| lia].
    simpl. apply IH.
    + rewrite length_replace_nth. lia.
    + intros date Hd. apply Hall. now right.
Qed.

End LoopFacts.

(** C9. The value stored for a valuation date is a function of the series,
    the date, [M] and [dt] alone: two runs of the loop on one series with
    the same [M] and [dt] store the same sigma for a date, wherever the
    date stands in each run and whatever other dates each run goes
    through; that value is the cast of [estimate] there. *)
Theorem sigma_deterministic
  (astype_float32 : npfloat -> npfloat) (S_all : frame) (M : Z)
  (dt : npfloat) (dates1 dates2 : list string)
  (sigma1 sigma2 : list npfloat) (k1 k2 : nat) (date : string) :
  sigma_for_M astype_float32 S_all dates1 M dt = Ok sigma1 ->
  sigma_for_M astype_float32 S_all dates2 M dt = Ok sigma2 ->
  nth_error dates1 k1 = Some date ->
  nth_error dates2 k2 = Some date ->
  nth_error sigma1 k1 = nth_error sigma2 k2
  /\ exists v, estimate S_all date M dt = Ok v
               /\ nth_error sigma1 k1 = Some (astype_float32 v).
Proof.
  intros H1 H2 Hk1 Hk2. unfold sigma_for_M in H1, H2.
  destruct (sigma_loop_entries _ _ _ _ _ _ _ _ H1) as (_ & _ & E1).
  destruct (sigma_loop_entries _ _ _ _ _ _ _ _ H2) as (_ & _ & E2).
  destruct (E1 k1 date Hk1) as (v1 & Hv1 & Hs1).
  destruct (E2 k2 date Hk2) as (v2 & Hv2 & Hs2).
  simpl in Hs1, Hs2.
  assert (v1 = v2) by congruence. subst v2.
  split; [congruence |].
  exists v1. now split.
Qed.

Lemma sigma_deterministic_witness :
  nth_error [sigma_at Sample.S_all 3 3 Sample.dt;
             sigma_at Sample.S_all 4 3 Sample.dt] 1
  = nth_error [sigma_at Sample.S_all 4 3 Sample.dt] 0.
Proof.
  refine (proj1 (sigma_deterministic (fun x => x) Sample.S_all 3 Sample.dt
                   Sample.actual_dates ["2023-08-10"] _ _ 1 0 "2023-08-10"
                   _ _ _ _)).
  - reflexivity.
  - reflexivity.
  - reflexivity.
  - reflexivity.
Defined.

(** * Further properties of the cell *)

(** ** The lookup of the valuation date *)

Lemma index_0_raised (date : string) (l : frame) (s : nat) (e : exn) :
  index_0 (filter (fun lr => String.eqb (Date (snd lr)) date)
             (combine (map Z.of_nat (seq s (length l))) l)) = Raise e ->
  forall r, In r l -> Date r <> date.
Proof.
  revert s. induction l as [| r0 l IH]; intros s H r Hr; simpl in H.
  - destruct Hr.
  - destruct (String.eqb (Date r0) date) eqn:E; [discriminate |].
    destruct Hr as [<- | Hr].
    + now apply String.eqb_neq.
    + now apply (IH (S s)).
Qed.

Lemma date_index_raised (S_all : frame) (date : string) (e : exn) :
  date_index S_all date = Raise e ->
  forall r, In r S_all -> Date r <> date.
Proof. apply index_0_raised. Qed.

Lemma date_index_intro (S_all : frame) (date : string) (k : nat) (r : row) :
  nth_error S_all k = Some r ->
  Date r = date ->
  (forall j r', (j < k)%nat -> nth_error S_all j = Some r' ->
                Date r' <> date) ->
  date_index S_all date = Ok (Z.of_nat k).
Proof.
  intros Hn Hd Hf.
  destruct (date_index S_all date) as [i' | e] eqn:E.
  - destruct (date_index_found _ _ _ E) as (r' & Hr' & Hn' & Hd' & Hf').
    f_equal.
    destruct (Nat.lt_trichotomy (Z.to_nat i') k) as [Hlt | [Heq | Hgt]].
    + exfalso. exact (Hf _ _ Hlt Hn' Hd').
    + lia.
    + exfalso. exact (Hf' _ _ Hgt Hn Hd).
  - exfalso. apply (date_index_raised _ _ _ E r); [| assumption].
    eapply nth_error_In. eassumption.
Qed.

(** X1. The lookup returns the position of the first row that carries the
    date, and only that: [date_index] is [i] exactly when row [i] has the
    date and no earlier row has it. *)
Theorem date_index_first_match (S_all : frame) (date : string) (i : Z) :
  date_index S_all date = Ok i
  <-> (0 <= i)%Z
      /\ exists r, nth_error S_all (Z.to_nat i) = Some r /\ Date r = date
                   /\ forall j r', (j < Z.to_nat i)%nat ->
                                   nth_error S_all j = Some r' ->
                                   Date r' <> date.
Proof.
  split.
  - intros H. destruct (date_index_found _ _ _ H) as (r & Hr & Hn & Hd & Hf).
    split; [lia |]. exists r. auto.
  - intros (Hi & r & Hn & Hd & Hf).
    rewrite <- (Z2Nat.id i Hi).
    exact (date_index_intro S_all date (Z.to_nat i) r Hn Hd Hf).
Qed.

(** X2. In a series without repeated dates, looking up the date of row [k]
    gives back [k]. *)
Theorem date_index_of_row (S_all : frame) (k : nat) (r : row) :
  NoDup (map Date S_all) ->
  nth_error S_all k = Some r ->
  date_index S_all (Date r) = Ok (Z.of_nat k).
Proof.
  intros Hnd Hk. apply (date_index_intro S_all (Date r) k r Hk eq_refl).
  intros j r' Hj Hn Hd.
  assert (Hjlen : (j < length (map Date S_all))%nat).
  { rewrite length_map. apply nth_error_Some. congruence. }
  assert (j = k); [| lia].
  apply (proj1 (NoDup_nth_error (map Date S_all)) Hnd j k Hjlen).
  rewrite !nth_error_map, Hn, Hk. simpl. now f_equal.
Qed.

Lemma date_index_of_row_witness :
  date_index Sample.S_all "2023-08-09" = Ok (Z.of_nat 3).
Proof.
  apply (date_index_of_row Sample.S_all 3
           (mkRow "2023-08-09" (Fin 4317))).
  - simpl. repeat constructor; simpl; intuition discriminate.
  - reflexivity.
Defined.

Lemma estimate_ok_date_present
  (S_all : frame) (date : string) (M : Z) (dt v : npfloat) :
  estimate S_all date M dt = Ok v -> In date (map Date S_all).
Proof.
  intros H. unfold estimate in H.
  destruct (date_index S_all date) as [i | e] eqn:E; [| discriminate].
  destruct (date_index_found _ _ _ E) as (r & _ & Hn & Hd & _).
  rewrite <- Hd. apply in_map. eapply nth_error_In. eassumption.
Qed.

(** X3. The estimate has a value exactly when the valuation date is a date
    of the series, whatever [M] and [dt] are: a lookback that is zero,
    negative or longer than the series, or a [dt] that is not positive,
    never raises. *)
Theorem estimate_returns_iff_date_present
  (S_all : frame) (date : string) (M : Z) (dt : npfloat) :
  (exists v, estimate S_all date M dt = Ok v)
  <-> In date (map Date S_all).
Proof.
  split.
  - intros (v & H). exact (estimate_ok_date_present _ _ _ _ _ H).
  - intros Hin. apply in_map_iff in Hin. destruct Hin as (r & Hd & Hr).
    destruct (date_index S_all date) as [i | e] eqn:E.
    + exists (sigma_at S_all i M dt). now apply estimate_at.
    + exfalso. exact (date_index_raised _ _ _ E r Hr Hd).
Qed.

(** ** The rolling window *)

(** X4. From one row to the next the window slides by one price: for
    [1 <= M <= i] and a row [i] of the series, the window of row [i+1] is
    the window of row [i] without its oldest price, followed by the price
    of row [i]. *)
Theorem history_data_slides (S_all : frame) (i M : Z) :
  (1 <= M <= i)%Z ->
  (i < Z.of_nat (length S_all))%Z ->
  history_data S_all (i + 1) M
  = (tl (history_data S_all i M)
       ++ [Adj_Close (nth (Z.to_nat i) S_all (mkRow "" NaN))])%list.
Proof.
  intros HM Hi.
  rewrite !history_data_window by lia.
  unfold Spec.window.
  destruct (Z.to_nat M) as [| m] eqn:Em; [lia |].
  assert (Hle : (S m <= Z.to_nat i)%nat) by lia.
  replace (Z.to_nat (i + 1)) with (S (Z.to_nat i)) by lia.
  set (a := Z.to_nat i) in *.
  rewrite seq_S at 1. rewrite map_app. simpl map at 2.
  rewrite <- cons_seq, <- seq_shift. simpl tl. rewrite map_map.
  f_equal.
  - apply map_ext. intros k. do 2 f_equal. lia.
  - do 3 f_equal. lia.
Qed.

Lemma history_data_slides_witness :
  history_data Sample.S_all (3 + 1) 2
  = (tl (history_data Sample.S_all 3 2)
       ++ [Adj_Close (nth (Z.to_nat 3) Sample.S_all (mkRow "" NaN))])%list.
Proof.
  apply (history_data_slides Sample.S_all 3 2).
  - lia.
  - simpl. lia.
Defined.

(** X5. Lookbacks are nested: for [0 <= M1 <= M2 <= i], the window of
    length [M1] at row [i] is the last [M1] prices of the window of length
    [M2] at that row. *)
Theorem history_data_nested (S_all : frame) (i M1 M2 : Z) :
  (0 <= M1 <= M2)%Z ->
  (M2 <= i)%Z ->
  (i <= Z.of_nat (length S_all))%Z ->
  history_data S_all i M1
  = skipn (Z.to_nat (M2 - M1)) (history_data S_all i M2).
Proof.
  intros H12 H2 Hi. unfold history_data.
  rewrite !iloc_slice_inside by lia.
  rewrite skipn_map. f_equal.
  replace (i - (i - M1))%Z with M1 by lia.
  replace (i - (i - M2))%Z with M2 by lia.
  rewrite skipn_firstn_comm, skipn_skipn.
  f_equal; [lia |]. f_equal. lia.
Qed.

Lemma history_data_nested_witness :
  history_data Sample.S_all 4 2
  = skipn (Z.to_nat (3 - 2)) (history_data Sample.S_all 4 3).
Proof.
  apply (history_data_nested Sample.S_all 4 2 3).
  - lia.
  - lia.
  - simpl. lia.
Defined.

(** ** Degenerate lookbacks and time steps *)

Lemma length_iloc_slice_le {A : Type} (l : list A) (start stop : Z) :
  (Z.of_nat (length (iloc_slice l start stop))
   <= Z.max 0 (slice_bound stop (Z.of_nat (length l))
               - slice_bound start (Z.of_nat (length l))))%Z.
Proof.
  unfold iloc_slice. rewrite length_firstn. lia.
Qed.

Lemma sigma_of_short (history : list npfloat) (dt : npfloat) :
  (length history <= 1)%nat -> sigma_of history dt = NaN.
Proof.
  destruct history as [| x [| y h]]; simpl; intros H.
  - apply sigma_of_nil.
  - apply sigma_of_single.
  - lia.
Qed.

(** X6. A lookback of at most one observation gives no volatility: for
    every [M <= 1] (zero and negative values included) and every date of
    the series, the estimate is [nan], without an error. *)
Theorem lookback_at_most_one_gives_nan
  (S_all : frame) (date : string) (i M : Z) (dt : npfloat) :
  date_index S_all date = Ok i ->
  (M <= 1)%Z ->
  estimate S_all date M dt = Ok NaN.
Proof.
  intros Hi HM.
  destruct (date_index_found _ _ _ Hi) as (r & Hrange & _).
  rewrite (estimate_at _ _ _ _ _ Hi). unfold sigma_at. f_equal.
  apply sigma_of_short. unfold history_data. rewrite length_map.
  pose proof (length_iloc_slice_le S_all (i - M) i) as Hlen.
  rewrite (slice_bound_inside i) in Hlen by lia.
  unfold slice_bound in Hlen.
  destruct (Z.ltb_spec (i - M) 0); lia.
Qed.

Lemma lookback_at_most_one_gives_nan_witness :
  estimate Sample.S_all "2023-08-10" 1 Sample.dt = Ok NaN.
Proof.
  apply (lookback_at_most_one_gives_nan Sample.S_all "2023-08-10" 4 1).
  - reflexivity.
  - lia.
Defined.

Lemma fsqrt_not_nonneg (x : npfloat) : ~ fnonneg x -> fsqrt x = NaN.
Proof.
  destruct x as [r | | |]; simpl; intros H; try tauto.
  rewrite Rsign_neg by lra. reflexivity.
Qed.

Lemma fdiv_NaN_r (x : npfloat) : fdiv x NaN = NaN.
Proof. destruct x; reflexivity. Qed.

(** X7. A time step that is negative (or [-inf], or [nan]) is not
    rejected: for every date of the series the estimate is [nan]. *)
Theorem negative_dt_gives_nan
  (S_all : frame) (date : string) (i M : Z) (dt : npfloat) :
  date_index S_all date = Ok i ->
  ~ fnonneg dt ->
  estimate S_all date M dt = Ok NaN.
Proof.
  intros Hi Hdt.
  rewrite (estimate_at _ _ _ _ _ Hi). unfold sigma_at, sigma_of. f_equal.
  rewrite (fsqrt_not_nonneg dt Hdt). apply fdiv_NaN_r.
Qed.

Lemma negative_dt_gives_nan_witness :
  estimate Sample.S_all "2023-08-10" 3 (Fin (-1)) = Ok NaN.
Proof.
  apply (negative_dt_gives_nan Sample.S_all "2023-08-10" 4 3).
  - reflexivity.
  - simpl. lra.
Defined.

(** X8. A zero time step is a division by zero that is not raised: for
    every date of the series the estimate comes out, and it is never a
    finite number (an infinity or [nan], whichever sign the zero has). *)
Theorem zero_dt_gives_no_finite_estimate
  (S_all : frame) (date : string) (i M : Z) :
  date_index S_all date = Ok i ->
  exists v, estimate S_all date M (Fin 0) = Ok v /\ ~ finite v.
Proof.
  intros Hi.
  rewrite (estimate_at _ _ _ _ _ Hi). eexists. split; [reflexivity |].
  unfold sigma_at, sigma_of, np_std.
  rewrite (fsqrt_nonneg 0) by lra. rewrite sqrt_0.
  match goal with |- context [fdiv (fsqrt ?x) _] =>
    destruct (fsqrt x) as [a | | |]
  end; simpl; rewrite ?Rsign_zero; try tauto.
  destruct (Rsign_cases a) as [[H E] | [[H E] | [H E]]]; rewrite E; simpl;
    tauto.
Qed.

Lemma zero_dt_gives_no_finite_estimate_witness :
  exists v, estimate Sample.S_all "2023-08-10" 3 (Fin 0) = Ok v
            /\ ~ finite v.
Proof.
  apply (zero_dt_gives_no_finite_estimate Sample.S_all "2023-08-10" 4 3).
  reflexivity.
Defined.

(** ** When the volatility is zero *)

Lemma Rsum_constant (l : list R) (a : R) :
  Forall (fun x => x = a) l -> Spec.Rsum l = INR (length l) * a.
Proof.
  induction 1 as [| x l Hx _ IH].
  - simpl. lra.
  - cbn [Spec.Rsum length]. rewrite S_INR, IH, Hx. lra.
Qed.

Lemma Rsum_nonneg_zero (l : list R) :
  Forall (fun x => 0 <= x) l -> Spec.Rsum l = 0 ->
  Forall (fun x => x = 0) l.
Proof.
  induction 1 as [| x l Hx Hl IH]; intros Hs; [constructor |].
  simpl in Hs.
  assert (Hnn : 0 <= Spec.Rsum l).
  { clear -Hl. induction Hl; simpl; lra. }
  constructor; [lra | apply IH; lra].
Qed.

Lemma pop_std_zero_iff (l : list R) :
  l <> [] ->
  Spec.pop_std l = 0
  <-> Forall (fun x => x = Spec.Rsum l / INR (length l)) l.
Proof.
  intros Hne.
  pose proof (INR_length_pos l Hne) as Hn.
  unfold Spec.pop_std.
  set (mu := Spec.Rsum l / INR (length l)).
  set (ss := Spec.Rsum (map (fun x => (x - mu) * (x - mu)) l)).
  assert (Hss : 0 <= ss) by apply Rsum_squares_nonneg.
  split.
  - intros H0.
    assert (Hq : ss / INR (length l) = 0).
    { apply sqrt_eq_0; [| assumption].
      apply Rmult_le_pos; [assumption |].
      left. now apply Rinv_0_lt_compat. }
    assert (Hz : ss = 0).
    { apply (Rmult_eq_compat_r (INR (length l))) in Hq.
      unfold Rdiv in Hq. rewrite Rmult_assoc, Rinv_l in Hq; lra. }
    assert (Hall : Forall (fun y => y = 0)
                     (map (fun x => (x - mu) * (x - mu)) l)).
    { apply Rsum_nonneg_zero; [| exact Hz].
      apply Forall_forall. intros y Hy.
      apply in_map_iff in Hy. destruct Hy as (x & <- & _).
      pose proof (Rle_0_sqr (x - mu)) as Hs. unfold Rsqr in Hs. exact Hs. }
    apply Forall_forall. intros x Hx.
    rewrite Forall_forall in Hall.
    assert (Hsq : (x - mu) * (x - mu) = 0)
      by (apply Hall, in_map_iff; now exists x).
    apply Rmult_integral in Hsq. lra.
  - intros Hall.
    assert (Hz : ss = 0).
    { unfold ss. apply Rsum_zeros.
      apply Forall_forall. intros y Hy.
      apply in_map_iff in Hy. destruct Hy as (x & <- & Hx).
      rewrite Forall_forall in Hall. rewrite (Hall x Hx).
      fold mu. lra. }
    rewrite Hz. unfold Rdiv. rewrite Rmult_0_l. apply sqrt_0.
Qed.

Lemma pop_std_all_equal (l : list R) (a : R) :
  l <> [] -> Forall (fun x => x = a) l -> Spec.pop_std l = 0.
Proof.
  intros Hne Ha. apply pop_std_zero_iff; [assumption |].
  rewrite (Rsum_constant l a Ha).
  pose proof (INR_length_pos l Hne) as Hn.
  replace (INR (length l) * a / INR (length l)) with a
    by (field; lra).
  assumption.
Qed.

Lemma log_returns_nth (p : list R) (k : nat) :
  (S k < length p)%nat ->
  nth k (Spec.log_returns p) 0 = ln (nth (S k) p 0) - ln (nth k p 0).
Proof.
  intros Hk. unfold Spec.log_returns.
  set (f := fun j => ln (nth (S j) p 0) - ln (nth j p 0)).
  rewrite (nth_indep _ 0 (f 0%nat))
    by (rewrite length_map, length_seq; lia).
  rewrite (map_nth f), seq_nth by lia. reflexivity.
Qed.

Lemma sigma_spec_zero_iff (p : list R) (dt : R) :
  Forall (fun x => 0 < x) p -> (2 <= length p)%nat -> 0 < dt ->
  Spec.sigma p dt = 0
  <-> exists g, 0 < g /\
        forall k, (S k < length p)%nat -> nth (S k) p 0 = g * nth k p 0.
Proof.
  intros Hp Hlen Hdt.
  assert (Hne : Spec.log_returns p <> []).
  { intros E. apply (f_equal (@length R)) in E.
    rewrite length_log_returns in E. simpl in E. lia. }
  assert (Hsq : 0 < sqrt dt) by now apply sqrt_lt_R0.
  assert (Hpos : forall k, (k < length p)%nat -> 0 < nth k p 0).
  { intros k Hk. rewrite Forall_forall in Hp. apply Hp, nth_In, Hk. }
  assert (Hstd : Spec.sigma p dt = 0 <-> Spec.pop_std (Spec.log_returns p) = 0).
  { unfold Spec.sigma. split; intros H.
    - apply (Rmult_eq_compat_r (sqrt dt)) in H.
      unfold Rdiv in H. rewrite Rmult_assoc, Rinv_l in H; lra.
    - rewrite H. unfold Rdiv. apply Rmult_0_l. }
  rewrite Hstd. split.
  - intros H0. apply (pop_std_zero_iff _ Hne) in H0.
    set (mu := Spec.Rsum (Spec.log_returns p)
               / INR (length (Spec.log_returns p))) in H0.
    exists (exp mu). split; [apply exp_pos |].
    intros k Hk.
    assert (Hr : ln (nth (S k) p 0) - ln (nth k p 0) = mu).
    { rewrite <- (log_returns_nth p k Hk).
      rewrite Forall_forall in H0. apply H0, nth_In.
      rewrite length_log_returns. lia. }
    rewrite <- (exp_ln (nth (S k) p 0)) by (apply Hpos; lia).
    replace (ln (nth (S k) p 0)) with (mu + ln (nth k p 0)) by lra.
    rewrite exp_plus, exp_ln by (apply Hpos; lia). reflexivity.
  - intros (g & Hg & Hgeo).
    apply (pop_std_all_equal _ (ln g) Hne).
    apply Forall_forall. intros y Hy.
    unfold Spec.log_returns in Hy.
    apply in_map_iff in Hy. destruct Hy as (k & <- & Hk).
    apply in_seq in Hk.
    rewrite (Hgeo k) by lia.
    rewrite ln_mult by (assumption || apply Hpos; lia). lra.
Qed.

(** X10. With a lookback of two there is one log-return, and its standard
    deviation is zero: for [M = 2], [dt > 0] and two positive prices before
    a date at row [i >= 2], the estimate is zero whatever the prices. *)
Theorem lookback_two_gives_zero
  (S_all : frame) (date : string) (i : Z) (dt a b : R) :
  date_index S_all date = Ok i ->
  (2 <= i)%Z ->
  0 < dt ->
  Spec.window S_all (Z.to_nat i) 2 = [Fin a; Fin b] ->
  0 < a -> 0 < b ->
  estimate S_all date 2 (Fin dt) = Ok (Fin 0).
Proof.
  intros Hi Hi2 Hdt Hw Ha Hb.
  destruct (date_index_found _ _ _ Hi) as (r & Hrange & _).
  rewrite (estimate_at _ _ _ _ _ Hi). unfold sigma_at.
  rewrite history_data_window by lia.
  change (Z.to_nat 2) with 2%nat. rewrite Hw.
  change [Fin a; Fin b] with (map Fin [a; b]).
  rewrite sigma_of_fin by (repeat constructor; assumption || simpl; lia).
  do 2 f_equal.
  apply sigma_spec_zero_iff;
    [repeat constructor; assumption | simpl; lia | assumption |].
  exists (b / a). split.
  - apply Rmult_lt_0_compat; [assumption | now apply Rinv_0_lt_compat].
  - intros [| k] Hk; simpl in Hk; [| lia].
    simpl. field. lra.
Qed.

Lemma lookback_two_gives_zero_witness :
  estimate Sample.S_all "2023-08-10" 2 Sample.dt = Ok (Fin 0).
Proof.
  apply (lookback_two_gives_zero Sample.S_all "2023-08-10" 4 (/ 252)
           4300 4317).
  - reflexivity.
  - lia.
  - lra.
  - reflexivity.
  - lra.
  - lra.
Defined.

(** ** The run over the dates and the lookbacks *)

Section CellFacts.

Variable astype_float32 : npfloat -> npfloat.

Lemma sigma_loop_raises (S_all : frame) (M : Z) (dt : npfloat)
  (dates : list string) :
  forall (i : nat) (sigma : list npfloat) (date : string),
    (i + length dates <= length sigma)%nat ->
    In date dates -> ~ In date (map Date S_all) ->
    sigma_loop astype_float32 S_all M dt dates i sigma = Raise IndexError.
Proof.
  induction dates as [| d rest IH]; intros i sigma date Hlen Hin Habs.
  - destruct Hin.
  - simpl. simpl in Hlen.
    destruct (estimate S_all d M dt) as [v | e] eqn:Ev.
    + simpl. unfold setitem.
      destruct (Nat.ltb_spec i (length sigma)) as [Hlt | Hge]; [| lia].
      simpl. destruct Hin as [-> | Hin].
      * exfalso. apply Habs.
        exact (estimate_ok_date_present _ _ _ _ _ Ev).
      * apply (IH _ _ date); [rewrite length_replace_nth; lia | | ]; assumption.
    + simpl. destruct e. reflexivity.
Qed.

Lemma py_getitem_first {A : Type} (x : A) (a : list A) :
  py_getitem (x :: a) 0 = Ok x.
Proof.
  unfold py_getitem. cbn [length].
  destruct (Z.ltb_spec 0 0); [lia |].
  destruct (Z.leb_spec 0 0); [| lia].
  destruct (Z.ltb_spec 0 (Z.of_nat (S (length a)))); [| lia].
  reflexivity.
Qed.

Lemma nth_error_last {A : Type} (d : A) (a : list A) :
  a <> [] -> nth_error a (length a - 1) = Some (last a d).
Proof.
  induction a as [| x a IH]; intros Hne; [congruence |].
  destruct a as [| y a]; [reflexivity |].
  change (last (x :: y :: a) d) with (last (y :: a) d).
  rewrite <- IH by discriminate.
  simpl. now rewrite Nat.sub_0_r.
Qed.

Lemma py_getitem_last {A : Type} (d : A) (a : list A) :
  a <> [] -> py_getitem a (-1) = Ok (last a d).
Proof.
  intros Hne. unfold py_getitem.
  assert (Hn : (0 < length a)%nat) by (destruct a; [congruence | simpl; lia]).
  destruct (Z.ltb_spec (-1) 0); [| lia].
  destruct (Z.leb_spec 0 (-1 + Z.of_nat (length a))); [| lia].
  destruct (Z.ltb_spec (-1 + Z.of_nat (length a)) (Z.of_nat (length a)));
    [| lia].
  simpl andb. cbv iota.
  replace (Z.to_nat (-1 + Z.of_nat (length a))) with (length a - 1)%nat
    by lia.
  now rewrite (nth_error_last d a Hne).
Qed.

Lemma py_getitem_nil {A : Type} (k : Z) :
  py_getitem (@nil A) k = Raise IndexError.
Proof.
  unfold py_getitem. cbn [length Z.of_nat]. cbv zeta.
  set (j := if (k <? 0)%Z then (k + 0)%Z else k).
  destruct (Z.leb_spec 0 j); destruct (Z.ltb_spec j 0); simpl;
    reflexivity || lia.
Qed.

End CellFacts.

Lemma In_dates_dec (S_all : frame) (date : string) :
  {In date (map Date S_all)} + {~ In date (map Date S_all)}.
Proof. apply in_dec, string_dec. Qed.

Lemma length_np_zeros (n : nat) : length (np_zeros n) = n.
Proof. apply repeat_length. Qed.

Lemma sigma_for_M_total (astype_float32 : npfloat -> npfloat)
  (S_all : frame) (dates : list string) (M : Z) (dt : npfloat) :
  (forall date, In date dates -> In date (map Date S_all)) ->
  exists sigma,
    sigma_for_M astype_float32 S_all dates M dt = Ok sigma
    /\ length sigma = length dates.
Proof.
  intros Hall. unfold sigma_for_M.
  destruct (sigma_loop_total astype_float32 S_all M dt dates 0
              (np_zeros (length dates))) as (sigma & Hs).
  - rewrite length_np_zeros. lia.
  - intros date Hd.
    destruct (date_index S_all date) as [j | e] eqn:E; [now exists j |].
    exfalso. specialize (Hall date Hd).
    apply in_map_iff in Hall. destruct Hall as (r & Hr & Hin).
    exact (date_index_raised _ _ _ E r Hin Hr).
  - exists sigma. split; [assumption |].
    destruct (sigma_loop_entries _ _ _ _ _ _ _ _ Hs) as (Hlen & _).
    now rewrite Hlen, length_np_zeros.
Qed.

(** X12. The loop over the dates returns its array exactly when every date
    is a date of the price series, and the array then has one entry per
    date; as soon as one date is missing from the price series, the loop
    raises [IndexError], whatever [M] and [dt] are. *)
Theorem sigma_for_M_outcome
  (astype_float32 : npfloat -> npfloat) (S_all : frame)
  (dates : list string) (M : Z) (dt : npfloat) :
  ((forall date, In date dates -> In date (map Date S_all))
   <-> exists sigma,
         sigma_for_M astype_float32 S_all dates M dt = Ok sigma
         /\ length sigma = length dates)
  /\ ((exists date, In date dates /\ ~ In date (map Date S_all))
      <-> sigma_for_M astype_float32 S_all dates M dt = Raise IndexError).
Proof.
  pose proof (sigma_for_M_total astype_float32 S_all dates M dt) as Hok.
  assert (Hraise : (exists date, In date dates /\ ~ In date (map Date S_all)) ->
                   sigma_for_M astype_float32 S_all dates M dt
                   = Raise IndexError).
  { intros (date & Hd & Habs). unfold sigma_for_M.
    apply (sigma_loop_raises astype_float32 S_all M dt dates 0 _ date);
      [rewrite length_np_zeros; lia | assumption | assumption]. }
  split; split.
  - exact Hok.
  - intros (sigma & Hs & _) date Hd.
    destruct (In_dates_dec S_all date) as [Hin | Habs]; [assumption |].
    rewrite Hraise in Hs by (exists date; now split). discriminate.
  - exact Hraise.
  - intros Hr.
    destruct (Exists_dec (fun date => ~ In date (map Date S_all)) dates)
      as [Hex | Hnex].
    + intros date. destruct (In_dates_dec S_all date); [right | left]; tauto.
    + apply Exists_exists in Hex. exact Hex.
    + exfalso. destruct Hok as (sigma & Hs & _); [| congruence].
      intros date Hd.
      destruct (In_dates_dec S_all date) as [Hin | Habs]; [assumption |].
      exfalso. apply Hnex, Exists_exists. now exists date.
Qed.

Lemma report_ok_inv (astype_float32 : npfloat -> npfloat) (S_all : frame)
  (dates : list string) (M : Z) (dt : npfloat) (line : report_line) :
  report astype_float32 S_all dates M dt = Ok line ->
  exists sigma d0 s0 d1 s1,
    sigma_for_M astype_float32 S_all dates M dt = Ok sigma
    /\ py_getitem dates 0 = Ok d0 /\ py_getitem sigma 0 = Ok s0
    /\ py_getitem dates (-1) = Ok d1 /\ py_getitem sigma (-1) = Ok s1
    /\ line = mkLine M d0 s0 d1 s1 (sigma_mean astype_float32 sigma).
Proof.
  unfold report. intros H.
  destruct (sigma_for_M astype_float32 S_all dates M dt) as [sigma |];
    simpl in H; [| discriminate].
  destruct (py_getitem dates 0) as [d0 |] eqn:E0; simpl in H;
    [| discriminate].
  destruct (py_getitem sigma 0) as [s0 |] eqn:E1; simpl in H;
    [| discriminate].
  destruct (py_getitem dates (-1)) as [d1 |] eqn:E2; simpl in H;
    [| discriminate].
  destruct (py_getitem sigma (-1)) as [s1 |] eqn:E3; simpl in H;
    [| discriminate].
  injection H as <-.
  exists sigma, d0, s0, d1, s1. repeat split; assumption || reflexivity.
Qed.

(** X13. When the dates are not empty and all in the price series, the
    line for a lookback reports that lookback, the first and the last
    date, and beside each the stored estimate of that very date: the float32
    cast of [estimate] at the first date and at the last date. *)
Theorem report_first_and_last
  (astype_float32 : npfloat -> npfloat) (S_all : frame)
  (dates : list string) (M : Z) (dt : npfloat) :
  dates <> [] ->
  (forall date, In date dates -> In date (map Date S_all)) ->
  exists line v0 v1,
    report astype_float32 S_all dates M dt = Ok line
    /\ line_M line = M
    /\ line_first_date line = hd "" dates
    /\ line_last_date line = last dates ""
    /\ estimate S_all (hd "" dates) M dt = Ok v0
    /\ line_sigma_first line = astype_float32 v0
    /\ estimate S_all (last dates "") M dt = Ok v1
    /\ line_sigma_last line = astype_float32 v1.
Proof.
  intros Hne Hall.
  destruct (sigma_for_M_total astype_float32 S_all dates M dt Hall)
    as (sigma & Hs & Hlen).
  pose proof Hs as Hs'. unfold sigma_for_M in Hs'.
  destruct (sigma_loop_entries _ _ _ _ _ _ _ _ Hs') as (_ & _ & Hent).
  assert (Hsne : sigma <> []).
  { intros ->. destruct dates; [congruence | discriminate]. }
  destruct (Hent 0%nat (hd "" dates)) as (v0 & Hv0 & Hn0).
  { destruct dates; [congruence | reflexivity]. }
  destruct (Hent (length dates - 1)%nat (last dates "")) as (v1 & Hv1 & Hn1).
  { now apply nth_error_last. }
  simpl in Hn0, Hn1.
  rewrite <- Hlen, (nth_error_last NaN sigma Hsne) in Hn1.
  injection Hn1 as Hl1.
  exists (mkLine M (hd "" dates) (astype_float32 v0) (last dates "")
            (astype_float32 v1) (sigma_mean astype_float32 sigma)), v0, v1.
  assert (Hg0 : py_getitem dates 0 = Ok (hd "" dates)).
  { destruct dates; [congruence | apply py_getitem_first]. }
  assert (Hg1 : py_getitem sigma 0 = Ok (astype_float32 v0)).
  { destruct sigma as [| s0 srest]; [congruence |].
    simpl in Hn0. injection Hn0 as ->. apply py_getitem_first. }
  assert (Hg2 : py_getitem sigma (-1) = Ok (astype_float32 v1)).
  { rewrite (py_getitem_last NaN sigma Hsne). now f_equal. }
  repeat split; try assumption.
  unfold report. rewrite Hs. cbn [bind].
  rewrite Hg0. cbn [bind]. rewrite Hg1. cbn [bind].
  rewrite (py_getitem_last "" dates Hne). cbn [bind].
  rewrite Hg2. reflexivity.
Qed.

Lemma report_first_and_last_witness :
  exists line v0 v1,
    report (fun x => x) Sample.S_all Sample.actual_dates 3 Sample.dt = Ok line
    /\ line_M line = 3%Z
    /\ line_first_date line = hd "" Sample.actual_dates
    /\ line_last_date line = last Sample.actual_dates ""
    /\ estimate Sample.S_all (hd "" Sample.actual_dates) 3 Sample.dt = Ok v0
    /\ line_sigma_first line = v0
    /\ estimate Sample.S_all (last Sample.actual_dates "") 3 Sample.dt
       = Ok v1
    /\ line_sigma_last line = v1.
Proof.
  apply (report_first_and_last (fun x => x) Sample.S_all Sample.actual_dates
           3 Sample.dt).
  - discriminate.
  - intros date Hd. simpl in Hd. simpl.
    destruct Hd as [<- | [<- | []]]; tauto.
Defined.

Lemma for_M_values_all (astype_float32 : npfloat -> npfloat)
  (S_all : frame) (dates : list string) (dt : npfloat) (M : list Z) :
  (forall M_value, exists line,
      report astype_float32 S_all dates M_value dt = Ok line
      /\ line_M line = M_value) ->
  forall stdout, exists lines,
    for_M_values astype_float32 S_all dates dt M stdout
    = ((stdout ++ lines)%list, Ok tt)
    /\ map line_M lines = M.
Proof.
  intros Hrep. induction M as [| M_value rest IH]; intros stdout.
  - exists []. simpl. now rewrite app_nil_r.
  - destruct (Hrep M_value) as (line & Hl & HM).
    destruct (IH (stdout ++ [line])%list) as (lines & Hrun & Hmap).
    exists (line :: lines). simpl. rewrite Hl, Hrun.
    rewrite <- app_assoc. simpl. split; [reflexivity |].
    now rewrite HM, Hmap.
Qed.

Lemma report_ok (astype_float32 : npfloat -> npfloat)
  (S_all : frame) (dates : list string) (M : Z) (dt : npfloat) :
  dates <> [] ->
  (forall date, In date dates -> In date (map Date S_all)) ->
  exists line,
    report astype_float32 S_all dates M dt = Ok line /\ line_M line = M.
Proof.
  intros Hne Hall.
  destruct (sigma_for_M_total astype_float32 S_all dates M dt Hall)
    as (sigma & Hs & Hlen).
  assert (Hsne : sigma <> []).
  { intros ->. destruct dates; [congruence | discriminate]. }
  unfold report. rewrite Hs. cbn [bind].
  destruct dates as [| d0 rest]; [congruence |].
  destruct sigma as [| s0 srest]; [congruence |].
  rewrite !py_getitem_first. cbn [bind].
  rewrite (py_getitem_last "" (d0 :: rest)) by discriminate.
  rewrite (py_getitem_last NaN (s0 :: srest)) by discriminate.
  cbn [bind]. eexists. split; reflexivity.
Qed.

Lemma report_raises (astype_float32 : npfloat -> npfloat)
  (S_all : frame) (dates : list string) (M : Z) (dt : npfloat) :
  dates = [] \/ (exists date, In date dates /\ ~ In date (map Date S_all)) ->
  report astype_float32 S_all dates M dt = Raise IndexError.
Proof.
  intros [-> | (date & Hd & Habs)].
  - reflexivity.
  - unfold report, sigma_for_M.
    rewrite (sigma_loop_raises astype_float32 S_all M dt dates 0 _ date);
      [reflexivity | rewrite length_np_zeros; lia | assumption | assumption].
Qed.

(** X14. When the dates are not empty and all in the price series, the
    cell prints one line per lookback, in the order of the list [M], and
    ends without an error. *)
Theorem cell_prints_a_line_per_lookback
  (astype_float32 : npfloat -> npfloat) (S_all : frame)
  (dates : list string) (dt : npfloat) (M : list Z) :
  dates <> [] ->
  (forall date, In date dates -> In date (map Date S_all)) ->
  exists lines,
    for_M_values astype_float32 S_all dates dt M [] = (lines, Ok tt)
    /\ map line_M lines = M.
Proof.
  intros Hne Hall.
  destruct (for_M_values_all astype_float32 S_all dates dt M) with (stdout := @nil report_line)
    as (lines & Hrun & Hmap).
  - intros M_value. now apply report_ok.
  - exists lines. now split.
Qed.

Lemma cell_prints_a_line_per_lookback_witness :
  exists lines,
    sigma_cell (fun x => x) Sample.S_all Sample.actual_dates Sample.dt
    = (lines, Ok tt)
    /\ map line_M lines = [21; 63; 252]%Z.
Proof.
  apply (cell_prints_a_line_per_lookback (fun x => x) Sample.S_all
           Sample.actual_dates Sample.dt [21; 63; 252]%Z).
  - discriminate.
  - intros date Hd. simpl in Hd. simpl.
    destruct Hd as [<- | [<- | []]]; tauto.
Defined.

(** X15. When there is no date at all, or one date is missing from the
    price series, the cell raises [IndexError] at the first lookback and
    has printed nothing: no line is printed for part of the lookbacks
    only. *)
Theorem cell_raises_before_printing
  (astype_float32 : npfloat -> npfloat) (S_all : frame)
  (dates : list string) (dt : npfloat) (M_value : Z) (rest : list Z) :
  dates = [] \/ (exists date, In date dates /\ ~ In date (map Date S_all)) ->
  for_M_values astype_float32 S_all dates dt (M_value :: rest) []
  = ([], Raise IndexError).
Proof.
  intros H. simpl.
  now rewrite (report_raises astype_float32 S_all dates M_value dt H).
Qed.

Lemma cell_raises_before_printing_witness :
  sigma_cell (fun x => x) Sample.S_all [] Sample.dt = ([], Raise IndexError).
Proof.
  apply (cell_raises_before_printing (fun x => x) Sample.S_all [] Sample.dt).
  now left.
Defined.

Lemma np_mean_with_nan (a : list npfloat) : In NaN a -> np_mean a = NaN.
Proof.
  intros Hin. unfold np_mean, np_sum.
  now rewrite (fold_fadd_NaN a (Fin 0) (or_intror Hin)).
Qed.

(** X16. One [nan] spoils the average: when the cast keeps [nan] and the
    estimate of one of the dates is [nan], the average printed for that
    lookback is [nan]. *)
Theorem average_is_nan_with_one_nan
  (astype_float32 : npfloat -> npfloat) (S_all : frame)
  (dates : list string) (M : Z) (dt : npfloat) (line : report_line)
  (date : string) :
  astype_float32 NaN = NaN ->
  report astype_float32 S_all dates M dt = Ok line ->
  In date dates ->
  estimate S_all date M dt = Ok NaN ->
  line_sigma_average line = NaN.
Proof.
  intros Hcast Hrep Hd Hnan.
  destruct (report_ok_inv _ _ _ _ _ _ Hrep)
    as (sigma & d0 & s0 & d1 & s1 & Hs & _ & _ & _ & _ & ->).
  simpl. unfold sigma_mean.
  unfold sigma_for_M in Hs.
  destruct (sigma_loop_entries _ _ _ _ _ _ _ _ Hs) as (_ & _ & Hent).
  apply In_nth_error in Hd. destruct Hd as (k & Hk).
  destruct (Hent k date Hk) as (v & Hv & Hn).
  assert (v = NaN) by congruence. subst v.
  rewrite Hcast in Hn. simpl in Hn.
  rewrite np_mean_with_nan; [assumption |].
  eapply nth_error_In. eassumption.
Qed.

Lemma average_is_nan_with_one_nan_witness :
  line_sigma_average
    (mkLine 3 "2023-08-04" (sigma_at Sample.S_all 0 3 Sample.dt)
       "2023-08-10" (sigma_at Sample.S_all 4 3 Sample.dt)
       (np_mean [sigma_at Sample.S_all 0 3 Sample.dt;
                 sigma_at Sample.S_all 4 3 Sample.dt]))
  = NaN.
Proof.
  apply (average_is_nan_with_one_nan (fun x => x) Sample.S_all
           ["2023-08-04"; "2023-08-10"] 3 Sample.dt _ "2023-08-04").
  - reflexivity.
  - reflexivity.
  - now left.
  - change (estimate Sample.S_all "2023-08-04" 3 Sample.dt)
      with (Ok (sigma_of [] Sample.dt)).
    f_equal. apply sigma_of_nil.
Defined.

(** ** The dates of interest *)

Lemma ascii_compare_refl (c : Ascii.ascii) : Ascii.compare c c = Eq.
Proof. unfold Ascii.compare. apply N.compare_refl. Qed.

Lemma ascii_compare_lt_trans (a b c : Ascii.ascii) :
  Ascii.compare a b = Lt -> Ascii.compare b c = Lt ->
  Ascii.compare a c = Lt.
Proof.
  unfold Ascii.compare. rewrite !N.compare_lt_iff. lia.
Qed.

Lemma string_compare_refl (s : string) : String.compare s s = Eq.
Proof.
  induction s as [| c s IH]; simpl; [reflexivity |].
  now rewrite ascii_compare_refl.
Qed.

Lemma string_compare_lt_trans (a b c : string) :
  String.compare a b = Lt -> String.compare b c = Lt ->
  String.compare a c = Lt.
Proof.
  revert b c. induction a as [| x a IH]; intros [| y b] [| z c];
    simpl; try congruence.
  destruct (Ascii.compare x y) eqn:Exy; try discriminate;
    destruct (Ascii.compare y z) eqn:Eyz; try discriminate; intros Hab Hbc.
  - apply Ascii.compare_eq_iff in Exy, Eyz. subst y z.
    rewrite ascii_compare_refl. now apply (IH b).
  - apply Ascii.compare_eq_iff in Exy. subst y. now rewrite Eyz.
  - apply Ascii.compare_eq_iff in Eyz. subst z. now rewrite Exy.
  - now rewrite (ascii_compare_lt_trans x y z Exy Eyz).
Qed.

Lemma string_leb_iff (a b : string) :
  String.leb a b = true <-> String.compare a b = Lt \/ a = b.
Proof.
  unfold String.leb. split.
  - destruct (String.compare a b) eqn:E; intros H; try discriminate.
    + right. now apply String.compare_eq_iff.
    + now left.
  - intros [-> | ->]; [reflexivity |].
    now rewrite string_compare_refl.
Qed.

Lemma string_leb_trans (a b c : string) :
  String.leb a b = true -> String.leb b c = true -> String.leb a c = true.
Proof.
  rewrite !string_leb_iff. intros [Hab | ->] [Hbc | ->]; auto.
  left. exact (string_compare_lt_trans a b c Hab Hbc).
Qed.

Lemma dates_between_filter (ir : ir_frame) (lo hi : string) :
  dates_between ir lo hi
  = filter (fun d => String.leb lo d && String.leb d hi) (map ir_Date ir).
Proof.
  unfold dates_between.
  induction ir as [| r ir IH]; [reflexivity |].
  simpl. destruct (String.leb lo (ir_Date r) && String.leb (ir_Date r) hi);
    simpl; now rewrite IH.
Qed.

Lemma filter_none (p : string -> bool) (l : list string) :
  (forall x, In x l -> p x = false) -> filter p l = [].
Proof.
  induction l as [| x l IH]; intros H; [reflexivity |].
  simpl. rewrite (H x (or_introl eq_refl)).
  apply IH. intros y Hy. apply H. now right.
Qed.

Lemma filter_upper_prefix (lo hi : string) (l : list string) :
  StronglySorted (fun a b => String.leb a b = true) l ->
  (forall x, In x l -> String.leb lo x = true) ->
  exists n,
    filter (fun d => String.leb lo d && String.leb d hi) l = firstn n l.
Proof.
  induction 1 as [| d l Hl IH Hd]; intros Hlo.
  - exists 0%nat. reflexivity.
  - simpl. rewrite (Hlo d (or_introl eq_refl)). simpl.
    destruct (String.leb d hi) eqn:Ehi.
    + destruct IH as (n & Hn); [intros x Hx; apply Hlo; now right |].
      exists (S n). simpl. now rewrite Hn.
    + exists 0%nat. simpl. apply filter_none.
      intros x Hx. rewrite Forall_forall in Hd.
      destruct (String.leb x hi) eqn:E; [| apply andb_false_r].
      rewrite (string_leb_trans d x hi (Hd x Hx) E) in Ehi. discriminate.
Qed.

Lemma filter_between_segment (lo hi : string) (l : list string) :
  StronglySorted (fun a b => String.leb a b = true) l ->
  exists a n,
    filter (fun d => String.leb lo d && String.leb d hi) l
    = firstn n (skipn a l).
Proof.
  induction 1 as [| d l Hl IH Hd].
  - exists 0%nat, 0%nat. reflexivity.
  - destruct (String.leb lo d) eqn:Elo.
    + destruct (filter_upper_prefix lo hi (d :: l)) as (n & Hn).
      * now constructor.
      * intros x [<- | Hx]; [assumption |].
        rewrite Forall_forall in Hd.
        exact (string_leb_trans lo d x Elo (Hd x Hx)).
      * exists 0%nat, n. exact Hn.
    + destruct IH as (a & n & Hn).
      exists (S a), n. simpl. rewrite Elo. simpl. exact Hn.
Qed.

(** X17. When the dates of the yield curve are in ascending order, the
    dates of interest are one unbroken run of its rows: every row from
    some position on, up to some count, and no row skipped. *)
Theorem dates_between_contiguous (ir : ir_frame) (lo hi : string) :
  Sorted (fun a b => String.leb a b = true) (map ir_Date ir) ->
  exists a n,
    dates_between ir lo hi = firstn n (skipn a (map ir_Date ir)).
Proof.
  intros Hs. rewrite dates_between_filter.
  apply filter_between_segment.
  apply Sorted_StronglySorted; [| assumption].
  intros x y z. apply string_leb_trans.
Qed.

Lemma dates_between_contiguous_witness :
  exists a n,
    actual_dates Sample.ir = firstn n (skipn a (map ir_Date Sample.ir)).
Proof.
  apply (dates_between_contiguous Sample.ir "2023-08-09" "2023-11-09").
  simpl. repeat constructor.
Defined.

(** X18. Bounds given in the wrong order select nothing and raise
    nothing: when [hi] is before [lo], there is no date of interest. *)
Theorem dates_between_reversed_bounds (ir : ir_frame) (lo hi : string) :
  String.ltb hi lo = true ->
  dates_between ir lo hi = [].
Proof.
  intros Hlt. rewrite dates_between_filter. apply filter_none.
  intros d _.
  destruct (String.leb lo d) eqn:E1; [| reflexivity].
  destruct (String.leb d hi) eqn:E2; [| reflexivity].
  pose proof (string_leb_trans lo d hi E1 E2) as H.
  unfold String.ltb in Hlt. unfold String.leb in H.
  rewrite String.compare_antisym in H.
  destruct (String.compare hi lo); simpl in H; discriminate.
Qed.

Lemma dates_between_reversed_bounds_witness :
  dates_between Sample.ir "2023-11-09" "2023-08-09" = [].
Proof.
  apply dates_between_reversed_bounds. reflexivity.
Defined.

(** ** Valid inputs and the rows around the window *)

(** X19. On a valid input (date at row [i], [2 <= M <= i], [dt > 0],
    positive window prices) the estimate is a finite number and it is not
    negative: neither [nan] nor an infinity comes out. *)
Theorem valid_input_finite_estimate
  (S_all : frame) (date : string) (i M : Z) (dt : R) (p : list R) :
  date_index S_all date = Ok i ->
  (2 <= M <= i)%Z ->
  0 < dt ->
  Spec.window S_all (Z.to_nat i) (Z.to_nat M) = map Fin p ->
  Forall (fun x => 0 < x) p ->
  exists s, estimate S_all date M (Fin dt) = Ok (Fin s) /\ 0 <= s.
Proof.
  intros Hi HM Hdt Hw Hp.
  destruct (date_index_found _ _ _ Hi) as (r & Hrange & _).
  assert (Hlen : length p = Z.to_nat M).
  { rewrite <- (length_map Fin p), <- Hw. apply length_window. }
  exists (Spec.sigma p dt). split.
  - rewrite (estimate_at _ _ _ _ _ Hi). unfold sigma_at.
    rewrite history_data_window by lia.
    rewrite Hw. f_equal. apply sigma_of_fin; [assumption | lia | assumption].
  - unfold Spec.sigma. apply Rmult_le_pos; [apply pop_std_nonneg |].
    left. apply Rinv_0_lt_compat. now apply sqrt_lt_R0.
Qed.

Lemma valid_input_finite_estimate_witness :
  exists s, estimate Sample.S_all "2023-08-10" 3 Sample.dt = Ok (Fin s)
            /\ 0 <= s.
Proof.
  apply (valid_input_finite_estimate Sample.S_all "2023-08-10" 4 3 (/ 252)
           [4300; 4300; 4317]).
  - reflexivity.
  - lia.
  - lra.
  - reflexivity.
  - repeat constructor; lra.
Defined.

Lemma window_inside (older S_all newer : frame) (i M : nat) :
  (M <= i)%nat -> (i <= length S_all)%nat ->
  Spec.window (older ++ S_all ++ newer)%list (length older + i) M
  = Spec.window S_all i M.
Proof.
  intros HM Hi. unfold Spec.window.
  apply map_ext_in. intros k Hk. apply in_seq in Hk. f_equal.
  rewrite app_nth2 by lia. rewrite app_nth1 by lia.
  f_equal. lia.
Qed.

(** X20. With enough history the estimate is local: when the date is at
    row [i] of the series and [0 <= M <= i], rows put after the series
    (newer quotes) and rows put before it (older quotes that do not carry
    the date) leave the estimate unchanged. *)
Theorem estimate_unchanged_by_more_rows
  (older S_all newer : frame) (date : string) (i M : Z) (dt : npfloat) :
  date_index S_all date = Ok i ->
  (0 <= M <= i)%Z ->
  (forall r, In r older -> Date r <> date) ->
  estimate (older ++ S_all ++ newer)%list date M dt = estimate S_all date M dt.
Proof.
  intros Hi HM Hold.
  destruct (date_index_found _ _ _ Hi) as (r & Hrange & Hn & Hd & Hf).
  assert (Hi' : date_index (older ++ S_all ++ newer)%list date
                = Ok (Z.of_nat (length older + Z.to_nat i))).
  { apply (date_index_intro _ date _ r).
    - rewrite nth_error_app2 by lia.
      replace (length older + Z.to_nat i - length older)%nat
        with (Z.to_nat i) by lia.
      rewrite nth_error_app1 by (apply nth_error_Some; congruence).
      assumption.
    - assumption.
    - intros j r' Hj Hn'.
      destruct (Nat.lt_ge_cases j (length older)) as [Hlt | Hge].
      + rewrite nth_error_app1 in Hn' by assumption.
        apply Hold. eapply nth_error_In. eassumption.
      + rewrite nth_error_app2 in Hn' by assumption.
        rewrite nth_error_app1 in Hn' by lia.
        apply (Hf (j - length older)%nat r'); [lia | assumption]. }
  rewrite (estimate_at _ _ _ _ _ Hi), (estimate_at _ _ _ _ _ Hi').
  unfold sigma_at. f_equal.
  rewrite !history_data_window; rewrite ?length_app; try lia.
  rewrite Nat2Z.id. f_equal.
  apply window_inside; lia.
Qed.

Lemma estimate_unchanged_by_more_rows_witness :
  estimate ([mkRow "2023-08-03" (Fin 4200)] ++ Sample.S_all
              ++ [mkRow "2023-08-11" (Fin 4400)])%list
    "2023-08-10" 3 Sample.dt
  = estimate Sample.S_all "2023-08-10" 3 Sample.dt.
Proof.
  apply (estimate_unchanged_by_more_rows _ Sample.S_all _ "2023-08-10" 4 3).
  - reflexivity.
  - lia.
  - intros r [<- | []]. discriminate.
Defined.
